(** * Booking availability and lifecycle engine of the [listings] app

    A shallow embedding of [listings/models.py], [listings/serializers.py]
    and [listings/views.py], and the properties of the booking engine proved
    on it.

    Conventions of the embedding:
    - a [datetime.date] is its proleptic Gregorian ordinal (a day number in
      [Z]); subtracting two dates and taking [.days] is subtraction in [Z];
    - a [DecimalField(max_digits=10, decimal_places=2)] amount is a number of
      minor units (hundredths) in [Z]; [int * Decimal + Decimal] is exact;
    - a timestamp ([DateTimeField]) is a point in time in [Z], [None] when the
      column is null;
    - users are identified by their primary key;
    - a database table is a finite map from primary keys to rows;
    - the clock is passed explicitly: [today] for [date.today()] and
      [timezone.now().date()], [now] for [timezone.now()]. *)

From stdpp Require Import gmap strings list fin_maps.

Local Open Scope Z_scope.

(** ** Dates *)

(** [datetime.date(y, m, d).toordinal()], used to write the dates of the
    scenarios. *)
Definition is_leap (y : Z) : bool :=
  (y mod 4 =? 0) && (negb (y mod 100 =? 0) || (y mod 400 =? 0)).

Definition days_before_year (y : Z) : Z :=
  let p := y - 1 in p * 365 + p / 4 - p / 100 + p / 400.

Definition days_in_month (y m : Z) : Z :=
  if m =? 2 then (if is_leap y then 29 else 28)
  else if (m =? 4) || (m =? 6) || (m =? 9) || (m =? 11) then 30
  else 31.

Fixpoint days_before_month_upto (y : Z) (n : nat) : Z :=
  match n with
  | O => 0
  | S k => days_before_month_upto y k + days_in_month y (Z.of_nat n)
  end.

Definition days_before_month (y m : Z) : Z :=
  days_before_month_upto y (Z.to_nat (m - 1)).

Definition date (y m d : Z) : Z :=
  days_before_year y + days_before_month y m + d.

(** ** Data model ([models.py]) *)

(** [Booking.STATUS_CHOICES] *)
Inductive Status : Set :=
  | pending
  | confirmed
  | active
  | completed
  | cancelled.

#[global] Instance Status_eq_dec : EqDecision Status.
Proof. solve_decision. Defined.

(** [request.user] *)
Record User : Set := mkUser {
  user_id : Z;
  is_staff : bool
}.

(** The columns of [Listing] the booking engine reads. *)
Record Listing : Set := mkListing {
  listing_id : Z;
  host : Z;
  max_guests : Z;
  base_price : Z;
  cleaning_fee : Z;
  security_deposit : Z;
  minimum_stay : Z;
  maximum_stay : Z
}.

#[global] Instance Listing_eq_dec : EqDecision Listing.
Proof. solve_decision. Defined.

(** A row of [Booking]. [listing] is the related object as attribute access
    [booking.listing] returns it; [guest] is the guest's key. *)
Record Booking : Set := mkBooking {
  listing : Listing;
  guest : Z;
  check_in : Z;
  check_out : Z;
  number_of_guests : Z;
  guest_special_requests : string;
  total_price : Z;
  security_deposit_held : Z;
  status : Status;
  updated_at : Z;
  confirmed_at : option Z;
  cancelled_at : option Z
}.

#[global] Instance Booking_eq_dec : EqDecision Booking.
Proof. solve_decision. Defined.

(** A row of [Review]. [rv_booking] is the key of the booking the one-to-one
    field points to. *)
Record Review : Set := mkReview {
  rv_listing : Listing;
  rv_booking : Z;
  rv_author : Z;
  rating : Z;
  title : string;
  comment : string;
  host_response : string;
  host_response_at : option Z;
  is_verified : bool;
  is_public : bool
}.

#[global] Instance Review_eq_dec : EqDecision Review.
Proof. solve_decision. Defined.

(** The two tables the engine reads and writes. *)
Record DB : Type := mkDB {
  bookings : gmap Z Booking;
  reviews : gmap Z Review
}.

(** The key an [AutoField] gives to the next inserted row. *)
Definition next_pk {A} (table : gmap Z A) : Z := fresh (dom table).

(** *** [Listing.is_available] *)

(** The rows kept by
    [self.bookings.filter(Q(check_in__lt=check_out) & Q(check_out__gt=check_in),
                          status__in=['confirmed', 'active'])]. *)
Definition overlapping (self : Listing) (ci co : Z) (row : Z * Booking) : Prop :=
  listing_id (listing row.2) = listing_id self
  ∧ (check_in row.2 < co ∧ check_out row.2 > ci)
  ∧ status row.2 ∈ [confirmed; active].

#[global] Instance overlapping_dec self ci co row :
  Decision (overlapping self ci co row).
Proof. unfold overlapping. apply _. Defined.

Definition overlapping_bookings (table : gmap Z Booking) (self : Listing)
    (ci co : Z) : gmap Z Booking :=
  filter (overlapping self ci co) table.

Definition Listing_is_available (table : gmap Z Booking) (self : Listing)
    (ci co : Z) : bool :=
  negb (bool_decide (overlapping_bookings table self ci co ≠ ∅)).


(** *** [Booking] properties and methods *)

Definition Booking_duration (self : Booking) : Z :=
  check_out self - check_in self.

Definition Booking_is_active (today : Z) (self : Booking) : bool :=
  bool_decide (status self = active)
  && bool_decide (check_in self ≤ today ≤ check_out self).

Definition Booking_can_be_cancelled (today : Z) (self : Booking) : bool :=
  bool_decide (status self ∈ [pending; confirmed])
  && negb (Booking_is_active today self).

Definition Booking_calculate_total_price (self : Booking) : Z :=
  let duration := Booking_duration self in
  let base_cost := duration * base_price (listing self) in
  base_cost + cleaning_fee (listing self).

(** [Model.save()] of a booking: [updated_at] is an [auto_now] column, the
    row is written under its key. *)
Definition touch (now : Z) (self : Booking) : Booking :=
  {| listing := listing self; guest := guest self;
     check_in := check_in self; check_out := check_out self;
     number_of_guests := number_of_guests self;
     guest_special_requests := guest_special_requests self;
     total_price := total_price self;
     security_deposit_held := security_deposit_held self;
     status := status self; updated_at := now;
     confirmed_at := confirmed_at self; cancelled_at := cancelled_at self |}.

Definition Booking_save (now pk : Z) (self : Booking) (db : DB) : DB :=
  {| bookings := <[pk := touch now self]> (bookings db);
     reviews := reviews db |}.

(** *** [Review.save] *)

(** [self.booking] fetches the booking row the one-to-one key points to and
    raises [RelatedObjectDoesNotExist] when there is none: the result is
    [None] then. A model instance is truthy, so the [if self.booking:] branch
    is taken whenever the fetch succeeds. [pk] is the key of the row, [None]
    for an instance that has not been inserted yet. The result is the new
    database, the key and the row as saved. *)
Definition Review_save (pk : option Z) (self : Review) (db : DB)
    : option (DB * Z * Review) :=
  booking ← bookings db !! rv_booking self;
  let self' :=
    {| rv_listing := listing booking; rv_booking := rv_booking self;
       rv_author := guest booking; rating := rating self;
       title := title self; comment := comment self;
       host_response := host_response self;
       host_response_at := host_response_at self;
       is_verified := is_verified self; is_public := is_public self |} in
  let key := default (next_pk (reviews db)) pk in
  Some ({| bookings := bookings db;
           reviews := <[key := self']> (reviews db) |}, key, self').

(** ** Serializers ([serializers.py]) *)

(** *** Text fields *)

(** A [str] is held as its UTF-8 encoding, one [Ascii.ascii] per byte. *)
Definition byte (a : Ascii.ascii) : N := Ascii.N_of_ascii a.

(** The characters [str.isspace] accepts, by the length of their encoding:
    U+0009..U+000D and U+001C..U+0020; U+0085 and U+00A0; U+1680,
    U+2000..U+200A, U+2028, U+2029, U+202F, U+205F and U+3000. *)
Definition is_space1 (c : N) : bool :=
  ((9 <=? c) && (c <=? 13) || (28 <=? c) && (c <=? 32))%N.

Definition is_space2 (c1 c2 : N) : bool :=
  ((c1 =? 0xC2) && ((c2 =? 0x85) || (c2 =? 0xA0)))%N.

Definition is_space3 (c1 c2 c3 : N) : bool :=
  ((c1 =? 0xE1) && (c2 =? 0x9A) && (c3 =? 0x80)
   || (c1 =? 0xE2) && (c2 =? 0x80)
      && ((0x80 <=? c3) && (c3 <=? 0x8A)
          || (c3 =? 0xA8) || (c3 =? 0xA9) || (c3 =? 0xAF))
   || (c1 =? 0xE2) && (c2 =? 0x81) && (c3 =? 0x9F)
   || (c1 =? 0xE3) && (c2 =? 0x80) && (c3 =? 0x80))%N.

(** [str.lstrip()] on the bytes; [fuel] bounds the number of characters
    dropped. *)
Fixpoint lstrip_bytes (fuel : nat) (l : list Ascii.ascii) : list Ascii.ascii :=
  match fuel with
  | O => l
  | S fuel' =>
      match l with
      | a :: l1 =>
          if is_space1 (byte a) then lstrip_bytes fuel' l1
          else
            match l1 with
            | b :: l2 =>
                if is_space2 (byte a) (byte b) then lstrip_bytes fuel' l2
                else
                  match l2 with
                  | c :: l3 =>
                      if is_space3 (byte a) (byte b) (byte c)
                      then lstrip_bytes fuel' l3 else l
                  | [] => l
                  end
            | [] => l
            end
      | [] => l
      end
  end.

(** [str.rstrip()] on the reversed bytes: the last byte comes first. *)
Fixpoint rstrip_reversed (fuel : nat) (l : list Ascii.ascii) : list Ascii.ascii :=
  match fuel with
  | O => l
  | S fuel' =>
      match l with
      | a :: l1 =>
          if is_space1 (byte a) then rstrip_reversed fuel' l1
          else
            match l1 with
            | b :: l2 =>
                if is_space2 (byte b) (byte a) then rstrip_reversed fuel' l2
                else
                  match l2 with
                  | c :: l3 =>
                      if is_space3 (byte c) (byte b) (byte a)
                      then rstrip_reversed fuel' l3 else l
                  | [] => l
                  end
            | [] => l
            end
      | [] => l
      end
  end.

(** [text.strip()] *)
Definition strip (text : string) : string :=
  let l := String.list_ascii_of_string text in
  let n := length l in
  String.string_of_list_ascii
    (rev (rstrip_reversed n (rev (lstrip_bytes n l)))).

(** [len(text)], the number of characters: the bytes that do not continue
    a character. *)
Definition len (text : string) : nat :=
  length (filter (λ a, ¬ (128 ≤ byte a < 192)%N) (String.list_ascii_of_string text)).

(** ['\x00' in text] *)
Definition has_null (text : string) : bool :=
  existsb (λ a, (byte a =? 0)%N) (String.list_ascii_of_string text).

(** What a [serializers.CharField] reports. *)
Inductive CharFieldError : Set :=
  | blank             (* "This field may not be blank." *)
  | max_length_exceeded
      (* "Ensure this field has no more than {max_length} characters." *)
  | null_characters.  (* "Null characters are not allowed." *)

#[global] Instance CharFieldError_eq_dec : EqDecision CharFieldError.
Proof. solve_decision. Defined.

(** [CharField(max_length=..., allow_blank=...).run_validation(data)] with
    the default [trim_whitespace=True]: a text that is empty once stripped
    is the blank case, which skips the validators; otherwise the stripped
    text goes through the length and null-character validators. The result
    is the value handed on, or the errors. *)
Definition CharField_run_validation (max_length : option nat)
    (allow_blank : bool) (data : string) : list CharFieldError + string :=
  let value := strip data in
  if bool_decide (value = "") then
    if allow_blank then inr "" else inl [blank]
  else
    let errors :=
      match max_length with
      | Some m =>
          if bool_decide (m < len value)%nat then [max_length_exceeded]
          else []
      | None => []
      end
      ++ (if has_null value then [null_characters] else []) in
    if bool_decide (errors = []) then inr value else inl errors.

(** The errors of a text field, for the list of a serializer. *)
Definition CharField_errors (max_length : option nat) (allow_blank : bool)
    (data : string) : list CharFieldError :=
  match CharField_run_validation max_length allow_blank data with
  | inl errors => errors
  | inr _ => []
  end.

(** Errors a single field reports before the serializer's own [validate]
    runs; they come from the validators declared on the model fields. *)
Inductive FieldError : Set :=
  | guests_below_minimum     (* number_of_guests: MinValueValidator(1) *)
  | booking_does_not_exist   (* booking: no row with this key *)
  | booking_not_unique       (* booking: OneToOneField, one_review_per_booking *)
  | rating_below_minimum     (* rating: MinValueValidator(1) *)
  | rating_above_maximum     (* rating: MaxValueValidator(5) *)
  | title_error (e : CharFieldError)          (* title: max_length=200 *)
  | comment_error (e : CharFieldError)        (* comment *)
  | host_response_error (e : CharFieldError). (* host_response: blank=True *)

(** [serializers.ValidationError], one constructor per message. *)
Inductive ValidationError : Set :=
  | check_out_not_after_check_in
      (* "Check-out date must be after check-in date." *)
  | check_in_in_the_past
      (* "Check-in date cannot be in the past." *)
  | listing_not_available
      (* "This listing is not available for the selected dates." *)
  | too_many_guests (maximum : Z)
      (* "This listing accommodates maximum {max_guests} guests." *)
  | stay_too_short (minimum : Z)
      (* "Minimum stay for this listing is {minimum_stay} nights." *)
  | stay_too_long (maximum : Z)
      (* "Maximum stay for this listing is {maximum_stay} nights." *)
  | cannot_change_status (current value : Status)
      (* "Cannot change status from {current_status} to {value}" *)
  | not_your_booking
      (* "You can only review your own bookings." *)
  | booking_not_completed
      (* "You can only review completed bookings." *)
  | field_errors (errors : list FieldError).

(** A serializer method either returns or raises a [ValidationError]. *)
Inductive Result (A : Type) : Type :=
  | Ok (a : A)
  | Raise (e : ValidationError).
Arguments Ok {A} a.
Arguments Raise {A} e.

#[global] Instance Result_ret : MRet Result := @Ok.
#[global] Instance Result_bind : MBind Result := λ A B f r,
  match r with
  | Ok a => f a
  | Raise e => Raise e
  end.

(** [if condition: raise serializers.ValidationError(e)] *)
Definition raise_if (condition : bool) (e : ValidationError) : Result unit :=
  if condition then Raise e else Ok ().

(** *** [CreateBookingSerializer] *)

Module CreateBookingSerializer.

(** The writable fields of the request, [listing] already resolved from
    its key to the row. *)
Record Data : Set := mkData {
  data_listing : Listing;
  data_check_in : Z;
  data_check_out : Z;
  data_number_of_guests : Z;
  data_guest_special_requests : string
}.

(** Field validation, run before [validate]:
    [number_of_guests] carries [MinValueValidator(1)]. *)
Definition to_internal_value (data : Data) : Result Data :=
  let errors :=
    if bool_decide (data_number_of_guests data < 1)
    then [guests_below_minimum] else [] in
  raise_if (negb (bool_decide (errors = []))) (field_errors errors);;
  mret data.

(** [validate(self, data)]; the result is [data] with the key
    ['duration'] added. *)
Definition validate (today : Z) (table : gmap Z Booking) (data : Data)
    : Result (Data * Z) :=
  (* Check if check-out is after check-in *)
  raise_if (bool_decide (data_check_in data >= data_check_out data))
    check_out_not_after_check_in;;
  (* Check if dates are in the future *)
  raise_if (bool_decide (data_check_in data < today))
    check_in_in_the_past;;
  let listing := data_listing data in
  (* Check if listing is available *)
  raise_if
    (negb (Listing_is_available table listing
             (data_check_in data) (data_check_out data)))
    listing_not_available;;
  (* Check guest count *)
  raise_if (bool_decide (data_number_of_guests data > max_guests listing))
    (too_many_guests (max_guests listing));;
  (* Check minimum stay *)
  let duration := data_check_out data - data_check_in data in
  raise_if (bool_decide (duration < minimum_stay listing))
    (stay_too_short (minimum_stay listing));;
  (* Check maximum stay *)
  raise_if (bool_decide (duration > maximum_stay listing))
    (stay_too_long (maximum_stay listing));;
  mret (data, duration).

(** [create(self, validated_data)] up to the call of
    [super().create(validated_data)]: the row handed to
    [Booking.objects.create], the other columns at their defaults. *)
Definition create_row (now : Z) (user : User) (validated_data : Data * Z)
    : Booking :=
  let listing := data_listing validated_data.1 in
  let duration := validated_data.2 in
  let base_cost := duration * base_price listing in
  let total_price := base_cost + cleaning_fee listing in
  {| listing := listing;
     guest := user_id user;
     check_in := data_check_in validated_data.1;
     check_out := data_check_out validated_data.1;
     number_of_guests := data_number_of_guests validated_data.1;
     guest_special_requests := data_guest_special_requests validated_data.1;
     total_price := total_price;
     security_deposit_held := security_deposit listing;
     status := pending;
     updated_at := now;
     confirmed_at := None;
     cancelled_at := None |}.

(** [create]: the row is inserted under a new key. *)
Definition create (now : Z) (user : User) (validated_data : Data * Z)
    (db : DB) : DB * Booking :=
  let row := create_row now user validated_data in
  (Booking_save now (next_pk (bookings db)) row db, row).

End CreateBookingSerializer.

(** *** [BookingStatusSerializer] *)

Module BookingStatusSerializer.

Definition valid_transitions (current_status : Status) : list Status :=
  match current_status with
  | pending => [confirmed; cancelled]
  | confirmed => [active; cancelled]
  | active => [completed]
  | completed => []
  | cancelled => []
  end.

Definition validate_status (instance : Booking) (value : Status)
    : Result Status :=
  let current_status := status instance in
  raise_if (bool_decide (value ∉ valid_transitions current_status))
    (cannot_change_status current_status value);;
  mret value.

(** [validated_data] as [update] hands it to [super().update]: the keys
    ['confirmed_at'] and ['cancelled_at'] are present only when [update]
    added them. *)
Record ValidatedData : Set := mkValidatedData {
  vd_status : Status;
  vd_confirmed_at : option Z;
  vd_cancelled_at : option Z
}.

(** [ModelSerializer.update]: every key of [validated_data] is set on the
    instance, which is then saved. *)
Definition set_attrs (instance : Booking) (validated_data : ValidatedData)
    : Booking :=
  {| listing := listing instance; guest := guest instance;
     check_in := check_in instance; check_out := check_out instance;
     number_of_guests := number_of_guests instance;
     guest_special_requests := guest_special_requests instance;
     total_price := total_price instance;
     security_deposit_held := security_deposit_held instance;
     status := vd_status validated_data;
     updated_at := updated_at instance;
     confirmed_at :=
       match vd_confirmed_at validated_data with
       | Some t => Some t
       | None => confirmed_at instance
       end;
     cancelled_at :=
       match vd_cancelled_at validated_data with
       | Some t => Some t
       | None => cancelled_at instance
       end |}.

(** [update(self, instance, validated_data)]; the result is the instance
    as saved. *)
Definition update (now : Z) (instance : Booking) (new_status : Status)
    : Booking :=
  let validated_data :=
    (* Set timestamps based on status changes *)
    if bool_decide (new_status = confirmed)
       && bool_decide (status instance = pending)
    then mkValidatedData new_status (Some now) None
    else if bool_decide (new_status = cancelled)
            && bool_decide (status instance ∈ [pending; confirmed])
    then mkValidatedData new_status None (Some now)
    else mkValidatedData new_status None None in
  touch now (set_attrs instance validated_data).

(** [is_valid()] followed by [save()]. *)
Definition save (now : Z) (instance : Booking) (value : Status)
    : Result Booking :=
  new_status ← validate_status instance value;
  mret (update now instance new_status).

End BookingStatusSerializer.

(** *** [ReviewSerializer] *)

Module ReviewSerializer.

(** The writable fields of the request; [listing], [author] and
    [is_verified] are read-only and never taken from it. *)
Record Data : Set := mkData {
  data_booking : Z;
  data_rating : Z;
  data_title : string;
  data_comment : string;
  data_host_response : string;
  data_is_public : bool
}.

(** Field validation, run before [validate]: [booking] must name a row and,
    being a one-to-one key, must not be used by another review; [rating]
    carries [MinValueValidator(1)] and [MaxValueValidator(5)]; [title],
    [comment] and [host_response] are text fields, [title] of at most 200
    characters, [host_response] allowed to be blank. The result pairs the
    cleaned data, its texts stripped, with the booking row the key resolves
    to. *)
Definition booking_errors (db : DB) (pk : Z) : list FieldError :=
  match bookings db !! pk with
  | None => [booking_does_not_exist]
  | Some _ =>
      if bool_decide (filter (λ row, rv_booking row.2 = pk) (reviews db) ≠ ∅)
      then [booking_not_unique] else []
  end.

Definition rating_errors (rating : Z) : list FieldError :=
  (if bool_decide (rating < 1) then [rating_below_minimum] else [])
  ++ (if bool_decide (rating > 5) then [rating_above_maximum] else []).

Definition title_errors (title : string) : list FieldError :=
  title_error <$> CharField_errors (Some 200%nat) false title.

Definition comment_errors (comment : string) : list FieldError :=
  comment_error <$> CharField_errors None false comment.

Definition host_response_errors (host_response : string) : list FieldError :=
  host_response_error <$> CharField_errors None true host_response.

Definition cleaned (data : Data) : Data :=
  {| data_booking := data_booking data;
     data_rating := data_rating data;
     data_title := strip (data_title data);
     data_comment := strip (data_comment data);
     data_host_response := strip (data_host_response data);
     data_is_public := data_is_public data |}.

Definition to_internal_value (db : DB) (data : Data)
    : Result (Data * Booking) :=
  let errors :=
    booking_errors db (data_booking data)
    ++ rating_errors (data_rating data)
    ++ title_errors (data_title data)
    ++ comment_errors (data_comment data)
    ++ host_response_errors (data_host_response data) in
  match bookings db !! data_booking data with
  | Some booking =>
      raise_if (negb (bool_decide (errors = []))) (field_errors errors);;
      mret (cleaned data, booking)
  | None => Raise (field_errors errors)
  end.

(** [validate(self, data)] on the creation path of [ReviewViewSet]: the
    request is in the serializer's context and [self.instance] is [None],
    so [booking] is [data.get('booking')]. *)
Definition validate (user : User) (data : Data * Booking)
    : Result (Data * Booking) :=
  let booking := data.2 in
  (* Ensure the user can only review their own completed bookings *)
  raise_if (negb (bool_decide (guest booking = user_id user)))
    not_your_booking;;
  raise_if (negb (bool_decide (status booking = completed)))
    booking_not_completed;;
  mret data.

(** [create(self, validated_data)] up to the call of
    [super().create(validated_data)]. *)
Definition create_row (user : User) (validated_data : Data * Booking)
    : Review :=
  let booking := validated_data.2 in
  {| rv_listing := listing booking;
     rv_booking := data_booking validated_data.1;
     rv_author := user_id user;
     rating := data_rating validated_data.1;
     title := data_title validated_data.1;
     comment := data_comment validated_data.1;
     host_response := data_host_response validated_data.1;
     host_response_at := None;
     (* Mark as verified since it's linked to a real booking *)
     is_verified := true;
     is_public := data_is_public validated_data.1 |}.

(** [create]: [Review.objects.create] builds the instance and calls
    [Review.save]. *)
Definition create (user : User) (validated_data : Data * Booking) (db : DB)
    : option (DB * Z * Review) :=
  Review_save None (create_row user validated_data) db.

End ReviewSerializer.

(** ** Views ([views.py]) *)

(** What a request ends in: a response of the framework, or an exception
    the view does not catch. *)
Inductive Response (A : Type) : Type :=
  | HTTP_200 (data : A)
  | HTTP_201 (data : A)
  | HTTP_400 (errors : ValidationError)
  | HTTP_400_cannot_be_cancelled
      (* {'error': 'This booking cannot be cancelled.'} *)
  | HTTP_404
  | NameError (name : string)
  | RelatedObjectDoesNotExist.
Arguments HTTP_200 {A} data.
Arguments HTTP_201 {A} data.
Arguments HTTP_400 {A} errors.
Arguments HTTP_400_cannot_be_cancelled {A}.
Arguments HTTP_404 {A}.
Arguments NameError {A} name.
Arguments RelatedObjectDoesNotExist {A}.

Module BookingViewSet.

(** [get_queryset]: staff see every booking, a guest their own. *)
Definition get_queryset (user : User) (db : DB) : gmap Z Booking :=
  if is_staff user then bookings db
  else filter (λ row, guest row.2 = user_id user) (bookings db).

Definition get_object (user : User) (pk : Z) (db : DB) : option Booking :=
  get_queryset user db !! pk.

(** [POST /bookings/]: [CreateBookingSerializer] validates the request,
    [perform_create] saves it. Amounts are unbounded here: a total that
    does not fit the ten digits of the [total_price] column, on which the
    save fails, has no counterpart in this model. *)
Definition create (today now : Z) (user : User)
    (data : CreateBookingSerializer.Data) (db : DB)
    : DB * Response Booking :=
  match
    CreateBookingSerializer.to_internal_value data
    ≫= CreateBookingSerializer.validate today (bookings db)
  with
  | Raise e => (db, HTTP_400 e)
  | Ok validated_data =>
      let '(db', row) :=
        CreateBookingSerializer.create now user validated_data db in
      (db', HTTP_201 row)
  end.

(** [PUT /bookings/{pk}/] with a ['status'] in the request:
    [get_serializer_class] picks [BookingStatusSerializer]. *)
Definition update (now : Z) (user : User) (pk : Z) (value : Status)
    (db : DB) : DB * Response Booking :=
  match get_object user pk db with
  | None => (db, HTTP_404)
  | Some instance =>
      match BookingStatusSerializer.validate_status instance value with
      | Raise e => (db, HTTP_400 e)
      | Ok new_status =>
          let instance' :=
            BookingStatusSerializer.update now instance new_status in
          ({| bookings := <[pk := instance']> (bookings db);
              reviews := reviews db |}, HTTP_200 instance')
      end
  end.

(** [POST /bookings/{pk}/cancel/]. [views.py] never imports [timezone]:
    on a cancellable booking the assignment to [booking.status] changes the
    instance in memory only, and evaluating [timezone.now()] raises
    [NameError] before [booking.save()] is reached. *)
Definition cancel (today : Z) (user : User) (pk : Z) (db : DB)
    : DB * Response Booking :=
  match get_object user pk db with
  | None => (db, HTTP_404)
  | Some booking =>
      if Booking_can_be_cancelled today booking
      then (db, NameError "timezone")
      else (db, HTTP_400_cannot_be_cancelled)
  end.

End BookingViewSet.

Module ReviewViewSet.

(** [POST /reviews/]: [ReviewSerializer] validates the request,
    [perform_create] saves it. *)
Definition create (user : User) (data : ReviewSerializer.Data) (db : DB)
    : DB * Response Review :=
  match
    ReviewSerializer.to_internal_value db data
    ≫= ReviewSerializer.validate user
  with
  | Raise e => (db, HTTP_400 e)
  | Ok validated_data =>
      match ReviewSerializer.create user validated_data db with
      | Some (db', _, row) => (db', HTTP_201 row)
      | None => (db, RelatedObjectDoesNotExist)
      end
  end.

End ReviewViewSet.

(** ** Further code of the app *)

(** *** [ListingSerializer.get_is_available] *)

Module ListingSerializer.

(** Availability for the default dates, the next 30 days. *)
Definition get_is_available (today : Z) (table : gmap Z Booking)
    (obj : Listing) : bool :=
  let check_in := today in
  let check_out := check_in + 30 in
  Listing_is_available table obj check_in check_out.

End ListingSerializer.

(** *** [ListingViewSet.get_queryset] *)

(** [Listing.STATUS_CHOICES] *)
Inductive ListingStatus : Set :=
  | listing_active
  | listing_inactive
  | listing_suspended.

#[global] Instance ListingStatus_eq_dec : EqDecision ListingStatus.
Proof. solve_decision. Defined.

(** A row of the listings table: the columns of [Listing] read so far and
    its [status]. The key of the row is the listing's [id]. *)
Record ListingRow : Set := mkListingRow {
  row_listing : Listing;
  row_status : ListingStatus
}.

Module ListingViewSet.

(** The rows kept by
    [Booking.objects.filter(Q(check_in__lt=check_out) & Q(check_out__gt=check_in),
                            status__in=['confirmed', 'active'])]. *)
Definition overlapping_any (ci co : Z) (row : Z * Booking) : Prop :=
  (check_in row.2 < co ∧ check_out row.2 > ci)
  ∧ status row.2 ∈ [confirmed; active].

#[global] Instance overlapping_any_dec ci co row :
  Decision (overlapping_any ci co row).
Proof. unfold overlapping_any. apply _. Defined.

(** [.values_list('listing_id', flat=True)] *)
Definition unavailable_listings (table : gmap Z Booking) (ci co : Z)
    : gset Z :=
  map_img ((λ b, listing_id (listing b)) <$> filter (overlapping_any ci co) table).

(** [get_queryset]. [check_in] and [check_out] are the query parameters of
    the request read as dates, [None] for a parameter that is absent or
    empty. *)
Definition get_queryset (listings : gmap Z ListingRow)
    (table : gmap Z Booking) (check_in check_out : option Z)
    : gmap Z ListingRow :=
  let queryset := filter (λ r, row_status r.2 = listing_active) listings in
  (* Filter by availability if dates provided *)
  match check_in, check_out with
  | Some ci, Some co =>
      filter (λ r, r.1 ∉ unavailable_listings table ci co) queryset
  | _, _ => queryset
  end.

End ListingViewSet.

(** *** [HostResponseSerializer] and [ReviewViewSet.respond] *)

Module HostResponseSerializer.

(** [update(self, instance, validated_data)]: [host_response] is the one
    field of the serializer and may be left out of the request
    ([blank=True]), [None] then; ['host_response_at'] is added, every key is
    set on the instance and the instance is saved under its key [pk]. *)
Definition update (now : Z) (pk : Z) (instance : Review)
    (validated_data : option string) (db : DB) : option (DB * Z * Review) :=
  let instance' :=
    {| rv_listing := rv_listing instance; rv_booking := rv_booking instance;
       rv_author := rv_author instance; rating := rating instance;
       title := title instance; comment := comment instance;
       host_response := default (host_response instance) validated_data;
       host_response_at := Some now;
       is_verified := is_verified instance;
       is_public := is_public instance |} in
  Review_save (Some pk) instance' db.

End HostResponseSerializer.

(** What [respond] ends in. *)
Inductive RespondResult : Type :=
  | respond_200 (data : Review)
  | respond_400 (errors : list CharFieldError)
  | respond_403
      (* {'error': 'Only the host can respond to this review.'} *)
  | respond_404
  | respond_RelatedObjectDoesNotExist.

Module ReviewResponse.

(** [ReviewViewSet.get_queryset]: the public reviews. *)
Definition get_queryset (db : DB) : gmap Z Review :=
  filter (λ row, is_public row.2 = true) (reviews db).

Definition get_object (pk : Z) (db : DB) : option Review :=
  get_queryset db !! pk.

(** [HostResponseSerializer(review, data=request.data).is_valid()]:
    [host_response], the one field, is a text field that may be blank and
    may be left out of the request, [None] then. The result is
    [validated_data], the text stripped, or the errors of the field. *)
Definition is_valid (data : option string)
    : list CharFieldError + option string :=
  match data with
  | None => inr None
  | Some text =>
      match CharField_run_validation None true text with
      | inl errors => inl errors
      | inr value => inr (Some value)
      end
  end.

(** [ReviewViewSet.respond]: [POST /reviews/{pk}/respond/]. *)
Definition respond (now : Z) (user : User) (pk : Z) (data : option string)
    (db : DB) : DB * RespondResult :=
  match get_object pk db with
  | None => (db, respond_404)
  | Some review =>
      (* Check if the current user is the host of the listing *)
      if negb (bool_decide (host (rv_listing review) = user_id user))
      then (db, respond_403)
      else
        match is_valid data with
        | inl errors => (db, respond_400 errors)
        | inr validated_data =>
            match
              HostResponseSerializer.update now pk review validated_data db
            with
            | Some (db', _, saved) => (db', respond_200 saved)
            | None => (db, respond_RelatedObjectDoesNotExist)
            end
        end
  end.

End ReviewResponse.

(** *** [Listing.review_count] *)

(** [self.reviews.count()]: the reviews of the listing, public or not. *)
Definition Listing_review_count (table : gmap Z Review) (self : Listing)
    : nat :=
  size (filter (λ row, listing_id (rv_listing row.2) = listing_id self) table).

(** *** The sample bookings of [seed.py] *)

(** [create_sample_bookings], the dates and the status of one booking.
    [today0] and [today] are the two readings of [timezone.now().date()],
    [days_ago] and [duration] the draws of [random.randint(1, 180)] and
    [random.randint(2, 14)], [pick] the draw of
    [random.choice(['pending', 'confirmed'])]. *)
Definition sample_dates (today0 days_ago duration : Z) : Z * Z :=
  let check_in := today0 - days_ago in
  let check_out := check_in + duration in
  (check_in, check_out).

Definition sample_status (today : Z) (dates : Z * Z) (pick : Status)
    : Status :=
  let '(check_in, check_out) := dates in
  (* Determine booking status based on dates *)
  if bool_decide (check_out < today) then completed
  else if bool_decide (check_in ≤ today ≤ check_out) then active
  else pick.

(** ** The vocabulary of the specification *)

(** Half-open ranges [[a,b)] and [[c,d)] conflict. *)
Definition ranges_conflict (a b c d : Z) : Prop := a < d ∧ c < b.

(** A booking blocks its listing's dates. *)
Definition blocking (b : Booking) : Prop :=
  status b = confirmed ∨ status b = active.

(** No blocking booking of [self] in [table] conflicts with [[ci,co)]. *)
Definition free_of_conflicts (table : gmap Z Booking) (self : Listing)
    (ci co : Z) : Prop :=
  ∀ pk b, table !! pk = Some b →
    listing_id (listing b) = listing_id self → blocking b →
    ¬ ranges_conflict ci co (check_in b) (check_out b).

(** An amount of whole currency units, in minor units. *)
Definition units (n : Z) : Z := n * 100.

(** The transition table of the lifecycle, as pairs (from, to). *)
Definition legal_transitions : list (Status * Status) :=
  [ (pending, confirmed); (pending, cancelled);
    (confirmed, active); (confirmed, cancelled);
    (active, completed) ].

Definition legal_transition (current target : Status) : Prop :=
  (current, target) ∈ legal_transitions.

#[global] Instance legal_transition_dec current target :
  Decision (legal_transition current target).
Proof. unfold legal_transition. apply _. Defined.

(** The rules a booking request is checked against. *)
Inductive Rule : Set :=
  | date_ordering      (* check_out > check_in *)
  | check_in_not_past  (* check_in is not before today *)
  | availability       (* the listing is available over the range *)
  | guest_ceiling      (* number_of_guests <= listing.max_guests *)
  | minimum_stay_bound (* listing.minimum_stay <= nights *)
  | maximum_stay_bound (* nights <= listing.maximum_stay *).

Definition violates (today : Z) (table : gmap Z Booking)
    (data : CreateBookingSerializer.Data) (r : Rule) : Prop :=
  let ci := CreateBookingSerializer.data_check_in data in
  let co := CreateBookingSerializer.data_check_out data in
  let l := CreateBookingSerializer.data_listing data in
  match r with
  | date_ordering => co ≤ ci
  | check_in_not_past => ci < today
  | availability => ¬ free_of_conflicts table l ci co
  | guest_ceiling =>
      max_guests l < CreateBookingSerializer.data_number_of_guests data
  | minimum_stay_bound => co - ci < minimum_stay l
  | maximum_stay_bound => maximum_stay l < co - ci
  end.

(** The error that reports a violated rule. *)
Definition error_of (data : CreateBookingSerializer.Data) (r : Rule)
    : ValidationError :=
  let l := CreateBookingSerializer.data_listing data in
  match r with
  | date_ordering => check_out_not_after_check_in
  | check_in_not_past => check_in_in_the_past
  | availability => listing_not_available
  | guest_ceiling => too_many_guests (max_guests l)
  | minimum_stay_bound => stay_too_short (minimum_stay l)
  | maximum_stay_bound => stay_too_long (maximum_stay l)
  end.

(** [e] reports the first rule of [order] the request violates. *)
Definition reports_first_violation (order : list Rule) (today : Z)
    (table : gmap Z Booking) (data : CreateBookingSerializer.Data)
    (e : ValidationError) : Prop :=
  ∃ (i : nat) (r : Rule),
    order !! i = Some r ∧ violates today table data r ∧ e = error_of data r
    ∧ ∀ (j : nat) (r' : Rule),
        (j < i)%nat → order !! j = Some r' → ¬ violates today table data r'.


(** The order in which [CreateBookingSerializer.validate] checks them. *)
Definition validate_order : list Rule :=
  [date_ordering; check_in_not_past; availability; guest_ceiling;
   minimum_stay_bound; maximum_stay_bound].

(** The booking's dates contain today. *)
Definition live (today : Z) (b : Booking) : Prop :=
  check_in b ≤ today ≤ check_out b.

(** No review of the table points to booking [pk]. *)
Definition not_reviewed (table : gmap Z Review) (pk : Z) : Prop :=
  ∀ k r, table !! k = Some r → rv_booking r ≠ pk.

(** At most one review per booking. *)
Definition one_review_per_booking (table : gmap Z Review) : Prop :=
  ∀ k1 k2 r1 r2, table !! k1 = Some r1 → table !! k2 = Some r2 →
    rv_booking r1 = rv_booking r2 → k1 = k2.

(** A review's listing and author are those of its booking. *)
Definition derived_from_booking (db : DB) (r : Review) : Prop :=
  ∃ b, bookings db !! rv_booking r = Some b
       ∧ rv_listing r = listing b ∧ rv_author r = guest b.

(** The text fields of a review request pass field validation: title and
    comment are not blank once stripped, the stripped title has at most 200
    characters, and no text holds a null character. *)
Definition text_ok (data : ReviewSerializer.Data) : Prop :=
  strip (ReviewSerializer.data_title data) ≠ ""
  ∧ (len (strip (ReviewSerializer.data_title data)) ≤ 200)%nat
  ∧ has_null (strip (ReviewSerializer.data_title data)) = false
  ∧ strip (ReviewSerializer.data_comment data) ≠ ""
  ∧ has_null (strip (ReviewSerializer.data_comment data)) = false
  ∧ has_null (strip (ReviewSerializer.data_host_response data)) = false.

#[global] Instance text_ok_dec data : Decision (text_ok data).
Proof. unfold text_ok. apply _. Defined.

(** ** Scenarios *)

(** Listing L of scenario 1. *)
Definition scenario_listing : Listing :=
  {| listing_id := 1; host := 10; max_guests := 4;
     base_price := units 100; cleaning_fee := units 20;
     security_deposit := units 0; minimum_stay := 2; maximum_stay := 14 |}.

(** A guest and another user. *)
Definition scenario_guest : User := {| user_id := 20; is_staff := false |}.
Definition scenario_other : User := {| user_id := 21; is_staff := false |}.

(** A booking of L by the guest over [[ci,co)] in the given status. *)
Definition scenario_booking (ci co : Z) (s : Status) : Booking :=
  {| listing := scenario_listing; guest := user_id scenario_guest;
     check_in := ci; check_out := co; number_of_guests := 2;
     guest_special_requests := "";
     total_price := (co - ci) * units 100 + units 20;
     security_deposit_held := 0; status := s; updated_at := 0;
     confirmed_at := None; cancelled_at := None |}.

(** The table of scenario 2: one confirmed booking [2024-06-01, 2024-06-05). *)
Definition scenario_table : gmap Z Booking :=
  {[ 1 := scenario_booking (date 2024 6 1) (date 2024 6 5) confirmed ]}.

(** Scenario 1: three nights at 100 a night with a cleaning fee of 20. *)
Definition scenario_1_request : CreateBookingSerializer.Data :=
  {| CreateBookingSerializer.data_listing := scenario_listing;
     CreateBookingSerializer.data_check_in := date 2024 6 1;
     CreateBookingSerializer.data_check_out := date 2024 6 4;
     CreateBookingSerializer.data_number_of_guests := 2;
     CreateBookingSerializer.data_guest_special_requests := "" |}.

(** Scenario 3 on the table of scenario 2: five guests for a listing of
    four, over dates that overlap the confirmed booking. *)
Definition scenario_3_request : CreateBookingSerializer.Data :=
  {| CreateBookingSerializer.data_listing := scenario_listing;
     CreateBookingSerializer.data_check_in := date 2024 6 3;
     CreateBookingSerializer.data_check_out := date 2024 6 6;
     CreateBookingSerializer.data_number_of_guests := 5;
     CreateBookingSerializer.data_guest_special_requests := "" |}.

(** A review request of the guest for the booking under key 1. *)
Definition scenario_5_request : ReviewSerializer.Data :=
  {| ReviewSerializer.data_booking := 1; ReviewSerializer.data_rating := 5;
     ReviewSerializer.data_title := "Great stay!";
     ReviewSerializer.data_comment := "Clean and comfortable.";
     ReviewSerializer.data_host_response := "";
     ReviewSerializer.data_is_public := true |}.

(** ** Vocabulary of the further properties *)

(** No two blocking bookings of one listing conflict. *)
Definition no_double_booking (table : gmap Z Booking) : Prop :=
  ∀ k1 k2 b1 b2,
    table !! k1 = Some b1 → table !! k2 = Some b2 → k1 ≠ k2 →
    listing_id (listing b1) = listing_id (listing b2) →
    blocking b1 → blocking b2 →
    ¬ ranges_conflict (check_in b1) (check_out b1) (check_in b2) (check_out b2).

(** How far a status is along the lifecycle. *)
Definition rank (s : Status) : nat :=
  match s with
  | pending => 0
  | confirmed => 1
  | active => 2
  | completed => 3
  | cancelled => 3
  end.

(** [updates n b b']: [n] successive status updates, all accepted, lead
    from [b] to [b']. *)
Inductive updates : nat → Booking → Booking → Prop :=
  | updates_none b : updates 0 b b
  | updates_step n now value b b' b'' :
      BookingStatusSerializer.save now b value = Ok b' →
      updates n b' b'' →
      updates (S n) b b''.

(** The invariants of a booking against its listing. *)
Definition well_formed (b : Booking) : Prop :=
  check_in b < check_out b
  ∧ 1 ≤ number_of_guests b ≤ max_guests (listing b)
  ∧ minimum_stay (listing b) ≤ Booking_duration b ≤ maximum_stay (listing b)
  ∧ total_price b = Booking_calculate_total_price b
  ∧ security_deposit_held b = security_deposit (listing b).

(** The lifecycle timestamps a status goes with. *)
Definition timestamps_match_status (b : Booking) : Prop :=
  match status b with
  | pending => confirmed_at b = None ∧ cancelled_at b = None
  | confirmed | active | completed =>
      is_Some (confirmed_at b) ∧ cancelled_at b = None
  | cancelled => is_Some (cancelled_at b)
  end.

(** The requester may see the booking. *)
Definition may_reach (user : User) (b : Booking) : Prop :=
  is_staff user = true ∨ guest b = user_id user.

(** A public review of a listing of host 10, on the booking under key 1. *)
Definition scenario_review : Review :=
  {| rv_listing := scenario_listing; rv_booking := 1;
     rv_author := user_id scenario_guest; rating := 5;
     title := "Great stay!"; comment := "Clean and comfortable.";
     host_response := ""; host_response_at := None;
     is_verified := true; is_public := true |}.

Definition scenario_host : User := {| user_id := 10; is_staff := false |}.

(** The database after the stay of scenario 5 and its review. *)
Definition scenario_reviewed_db : DB :=
  {| bookings := {[ 1 := scenario_booking 10 13 completed ]};
     reviews := {[ 1 := scenario_review ]} |}.

(** A table with two blocking bookings of L, [2024-06-01, 2024-06-05)
    confirmed and [2024-06-10, 2024-06-13) active, and a request for the
    three nights between them. *)
Definition scenario_busy_table : gmap Z Booking :=
  {[ 1 := scenario_booking (date 2024 6 1) (date 2024 6 5) confirmed;
     2 := scenario_booking (date 2024 6 10) (date 2024 6 13) active ]}.

Definition scenario_gap_request : CreateBookingSerializer.Data :=
  {| CreateBookingSerializer.data_listing := scenario_listing;
     CreateBookingSerializer.data_check_in := date 2024 6 5;
     CreateBookingSerializer.data_check_out := date 2024 6 8;
     CreateBookingSerializer.data_number_of_guests := 2;
     CreateBookingSerializer.data_guest_special_requests := "" |}.

(** ** Availability *)

Lemma not_overlapping_iff self ci co pk b :
  ¬ overlapping self ci co (pk, b) ↔
  (listing_id (listing b) = listing_id self → blocking b →
   ¬ ranges_conflict ci co (check_in b) (check_out b)).
Proof.
  unfold overlapping, blocking, ranges_conflict; simpl.
  rewrite !elem_of_cons, elem_of_nil. split.
  - intros Hno Hl Hs [Ha Hb]. apply Hno. repeat split; [done|lia|lia|tauto].
  - intros Hfree (Hl & [Ha Hb] & Hs). apply Hfree; [done|tauto|lia].
Qed.

Lemma is_available_true table self ci co :
  Listing_is_available table self ci co = true ↔
  free_of_conflicts table self ci co.
Proof.
  unfold Listing_is_available, overlapping_bookings, free_of_conflicts.
  rewrite negb_true_iff, bool_decide_eq_false.
  split.
  - intros Hempty pk b Hpk. apply not_overlapping_iff with (pk := pk).
    apply dec_stable in Hempty.
    by apply (map_empty_filter_1 _ _ Hempty pk b).
  - intros Hfree Hne. apply Hne, map_empty_filter_2.
    intros pk b Hpk. apply (not_overlapping_iff self ci co pk b).
    by apply (Hfree pk).
Qed.

(** C1. [is_available] answers true exactly when no confirmed or active
    booking of the same listing conflicts with the candidate range, two
    half-open ranges [[a,b)] and [[c,d)] conflicting iff [a < d] and [c < b].
    In particular a table whose blocking bookings of the listing all end by
    the candidate's check-in or start at or after its check-out (touching
    endpoints included) is reported available, and a blocking booking that
    properly overlaps the candidate makes it unavailable. *)
Theorem is_available_iff_no_conflict table self ci co :
  (Listing_is_available table self ci co = true ↔
   free_of_conflicts table self ci co)
  ∧ ((∀ pk b, table !! pk = Some b →
        listing_id (listing b) = listing_id self → blocking b →
        check_out b ≤ ci ∨ co ≤ check_in b) →
     Listing_is_available table self ci co = true)
  ∧ ((∃ pk b, table !! pk = Some b
        ∧ listing_id (listing b) = listing_id self ∧ blocking b
        ∧ ci < check_out b ∧ check_in b < co) →
     Listing_is_available table self ci co = false).
Proof.
  split; [apply is_available_true|split].
  - intros Htouch. apply is_available_true.
    intros pk b Hpk Hl Hs [Ha Hb].
    destruct (Htouch pk b Hpk Hl Hs); lia.
  - intros (pk & b & Hpk & Hl & Hs & Ha & Hb).
    apply not_true_iff_false. rewrite is_available_true.
    intros Hfree. by apply (Hfree pk b Hpk Hl Hs).
Qed.

(** Scenario 2, on the table holding one confirmed booking
    [2024-06-01, 2024-06-05): a stay that starts on the day the booking
    ends is available, a stay over [2024-06-03, 2024-06-06) is not. The
    request [2024-06-04, 2024-06-08) of the scenario starts one day before
    the booking ends: it overlaps and is not available. *)
Example scenario_2 :
  Listing_is_available scenario_table scenario_listing
    (date 2024 6 5) (date 2024 6 8) = true
  ∧ Listing_is_available scenario_table scenario_listing
    (date 2024 6 3) (date 2024 6 6) = false
  ∧ Listing_is_available scenario_table scenario_listing
    (date 2024 6 4) (date 2024 6 8) = false.
Proof. by vm_compute. Qed.

Lemma is_available_iff_no_conflict_witness :
  Listing_is_available scenario_table scenario_listing
    (date 2024 6 5) (date 2024 6 8) = true
  ∧ Listing_is_available scenario_table scenario_listing
    (date 2024 6 3) (date 2024 6 6) = false.
Proof.
  split.
  - apply (is_available_iff_no_conflict scenario_table scenario_listing
             (date 2024 6 5) (date 2024 6 8)).
    intros pk b Hpk _ _. left. unfold scenario_table in Hpk.
    apply lookup_singleton_Some in Hpk as [_ <-]. by vm_compute.
  - apply (is_available_iff_no_conflict scenario_table scenario_listing
             (date 2024 6 3) (date 2024 6 6)).
    exists 1, (scenario_booking (date 2024 6 1) (date 2024 6 5) confirmed).
    split_and!; [done|done|by left|by vm_compute|by vm_compute].
Defined.

(** ** Pricing *)

Lemma raise_if_bind {A} (condition : bool) e (k : Result A) :
  (raise_if condition e;; k) = if condition then Raise e else k.
Proof. by destruct condition. Qed.

(** Case analysis along the checks of [validate]. *)
Ltac validate_cases :=
  unfold CreateBookingSerializer.validate;
  rewrite !raise_if_bind; unfold mret, Result_ret;
  destruct (Listing_is_available _ _ _ _) eqn:?; simpl;
  repeat case_bool_decide.

(** What a successful [validate] guarantees and returns. *)
Lemma validate_Ok_inv today table data validated_data :
  CreateBookingSerializer.validate today table data = Ok validated_data →
  validated_data =
    (data, CreateBookingSerializer.data_check_out data
           - CreateBookingSerializer.data_check_in data)
  ∧ CreateBookingSerializer.data_check_in data
    < CreateBookingSerializer.data_check_out data.
Proof.
  validate_cases; try discriminate.
  intros [= <-]. split; [done|lia].
Qed.

Lemma calculate_total_price_formula (b : Booking) :
  Booking_calculate_total_price b =
  (check_out b - check_in b) * base_price (listing b)
  + cleaning_fee (listing b).
Proof. reflexivity. Qed.

(** C2. A booking the creation path accepts has [check_out > check_in] and
    is stored with [total_price = nights * listing.base_price +
    listing.cleaning_fee], where [nights = check_out - check_in] in days;
    [Booking.calculate_total_price] computes the same amount. *)
Theorem total_price_formula today now user data db db' row :
  BookingViewSet.create today now user data db = (db', HTTP_201 row) →
  let nights := check_out row - check_in row in
  check_out row > check_in row
  ∧ listing row = CreateBookingSerializer.data_listing data
  ∧ check_in row = CreateBookingSerializer.data_check_in data
  ∧ check_out row = CreateBookingSerializer.data_check_out data
  ∧ total_price row
    = nights * base_price (listing row) + cleaning_fee (listing row)
  ∧ Booking_calculate_total_price row = total_price row
  ∧ (∀ b : Booking,
       Booking_calculate_total_price b
       = (check_out b - check_in b) * base_price (listing b)
         + cleaning_fee (listing b)).
Proof.
  unfold BookingViewSet.create, CreateBookingSerializer.to_internal_value.
  rewrite raise_if_bind. case_bool_decide; simpl; [|done].
  destruct (CreateBookingSerializer.validate _ _ _) as [vd|e] eqn:Hv;
    [|done].
  apply validate_Ok_inv in Hv as [-> Hlt].
  intros [= _ <-]. simpl. split_and!; try lia; try done.
Qed.

Lemma total_price_formula_witness :
  let db := mkDB ∅ ∅ in
  let row :=
    CreateBookingSerializer.create_row 0 scenario_guest
      (scenario_1_request, 3) in
  BookingViewSet.create (date 2024 5 1) 0 scenario_guest scenario_1_request db
  = (Booking_save 0 (next_pk (bookings db)) row db, HTTP_201 row)
  ∧ total_price row = 3 * units 100 + units 20
  ∧ total_price row = units 320.
Proof.
  intros db row.
  assert (BookingViewSet.create (date 2024 5 1) 0 scenario_guest
            scenario_1_request db
          = (Booking_save 0 (next_pk (bookings db)) row db, HTTP_201 row))
    as Hcreate by (by vm_compute).
  split; [exact Hcreate|]. split; [|by vm_compute].
  pose proof (total_price_formula _ _ _ _ _ _ _ Hcreate)
    as (_ & _ & _ & _ & Hprice & _ & _).
  exact Hprice.
Defined.

(** ** Lifecycle *)

(** The runtime mapping [valid_transitions] is the transition table. *)
Lemma valid_transitions_legal (current value : Status) :
  value ∈ BookingStatusSerializer.valid_transitions current ↔
  legal_transition current value.
Proof.
  unfold legal_transition, legal_transitions.
  destruct current, value; simpl; split; intros H;
    repeat (apply elem_of_cons in H as [H|H]; try discriminate);
    try (by apply elem_of_nil in H);
    repeat (first [by apply list_elem_of_here | apply list_elem_of_further]).
Qed.

Lemma validate_status_legal instance value :
  legal_transition (status instance) value →
  BookingStatusSerializer.validate_status instance value = Ok value.
Proof.
  intros H%valid_transitions_legal.
  unfold BookingStatusSerializer.validate_status. rewrite raise_if_bind.
  by rewrite bool_decide_eq_false_2 by (by intros Hn).
Qed.

Lemma validate_status_illegal instance value :
  ¬ legal_transition (status instance) value →
  BookingStatusSerializer.validate_status instance value
  = Raise (cannot_change_status (status instance) value).
Proof.
  intros H. unfold BookingStatusSerializer.validate_status.
  rewrite raise_if_bind, bool_decide_eq_true_2; [done|].
  by rewrite valid_transitions_legal.
Qed.

(** C3. A status update of a booking the requester can reach succeeds
    exactly when (current, target) is one of pending -> confirmed,
    pending -> cancelled, confirmed -> active, confirmed -> cancelled,
    active -> completed: then the booking is stored with the target status.
    Every other request, among them every one on a completed or cancelled
    booking, is answered with the error "Cannot change status from ... to
    ..." and leaves the database as it was. *)
Theorem status_update_iff_legal now user pk value db instance :
  BookingViewSet.get_object user pk db = Some instance →
  ((∃ saved, BookingStatusSerializer.save now instance value = Ok saved)
     ↔ legal_transition (status instance) value)
  ∧ (legal_transition (status instance) value →
       ∃ saved db',
         BookingViewSet.update now user pk value db = (db', HTTP_200 saved)
         ∧ bookings db' !! pk = Some saved ∧ status saved = value)
  ∧ (¬ legal_transition (status instance) value →
       BookingStatusSerializer.save now instance value
         = Raise (cannot_change_status (status instance) value)
       ∧ BookingViewSet.update now user pk value db
         = (db, HTTP_400 (cannot_change_status (status instance) value)))
  ∧ (status instance = completed ∨ status instance = cancelled →
       ¬ legal_transition (status instance) value).
Proof.
  intros Hget. unfold BookingViewSet.update, BookingStatusSerializer.save.
  rewrite Hget. repeat split.
  - intros [saved Hs]. destruct (decide (legal_transition (status instance) value))
      as [|Hn]; [done|].
    by rewrite (validate_status_illegal _ _ Hn) in Hs.
  - intros Hl. rewrite (validate_status_legal _ _ Hl). by eexists.
  - intros Hl. rewrite (validate_status_legal _ _ Hl).
    eexists _, _. split; [done|]. simpl. rewrite lookup_insert_eq.
    split; [done|].
    unfold BookingStatusSerializer.update.
    by repeat (case_match; simpl).
  - by rewrite (validate_status_illegal _ _ H).
  - by rewrite (validate_status_illegal _ _ H).
  - intros [Hs|Hs] Hl%valid_transitions_legal; rewrite Hs in Hl;
      by apply elem_of_nil in Hl.
Qed.

Lemma status_update_iff_legal_witness :
  let db := mkDB {[ 1 := scenario_booking 10 13 pending ]} ∅ in
  (∃ saved db',
     BookingViewSet.update 5 scenario_guest 1 confirmed db
       = (db', HTTP_200 saved)
     ∧ bookings db' !! 1 = Some saved ∧ status saved = confirmed)
  ∧ BookingViewSet.update 5 scenario_guest 1 active db
    = (db, HTTP_400 (cannot_change_status pending active)).
Proof.
  intros db.
  assert (BookingViewSet.get_object scenario_guest 1 db
          = Some (scenario_booking 10 13 pending)) as Hget by (by vm_compute).
  split.
  - destruct (status_update_iff_legal 5 _ _ confirmed _ _ Hget)
      as (_ & Hlegal & _ & _).
    apply Hlegal, (bool_decide_unpack _). by vm_compute.
  - destruct (status_update_iff_legal 5 _ _ active _ _ Hget)
      as (_ & _ & Hillegal & _).
    apply Hillegal. intros Hl%(bool_decide_pack _). by vm_compute in Hl.
Defined.

(** ** Cancellation *)

Lemma is_active_true today (b : Booking) :
  Booking_is_active today b = true ↔ status b = active ∧ live today b.
Proof.
  unfold Booking_is_active, live.
  by rewrite andb_true_iff, !bool_decide_eq_true.
Qed.

Lemma can_be_cancelled_true today (b : Booking) :
  Booking_can_be_cancelled today b = true ↔
  status b = pending ∨ status b = confirmed.
Proof.
  unfold Booking_can_be_cancelled, Booking_is_active.
  destruct (status b); by vm_compute; intuition discriminate.
Qed.

(** C4, as the code has it. [can_be_cancelled] is true if and only if the
    status is pending or confirmed. Its second conjunct, [not is_active],
    never decides: [is_active] holds iff the status is active and today lies
    in [[check_in, check_out]], which a pending or confirmed booking never
    satisfies. A pending or confirmed booking whose dates contain today is
    therefore reported cancellable. *)
Theorem can_be_cancelled_iff_pending_or_confirmed today (b : Booking) :
  (Booking_can_be_cancelled today b = true ↔
   status b = pending ∨ status b = confirmed)
  ∧ (Booking_can_be_cancelled today b = true ↔
     (status b = pending ∨ status b = confirmed)
     ∧ Booking_is_active today b = false)
  ∧ (Booking_is_active today b = true ↔ status b = active ∧ live today b)
  ∧ (status b = pending ∨ status b = confirmed →
     Booking_is_active today b = false).
Proof.
  assert (status b = pending ∨ status b = confirmed →
          Booking_is_active today b = false) as Hvacuous.
  { unfold Booking_is_active. by intros [->| ->]. }
  split; [apply can_be_cancelled_true|].
  split; [|split; [apply is_active_true|exact Hvacuous]].
  rewrite can_be_cancelled_true. split; [|tauto].
  intros H. split; [done|by apply Hvacuous].
Qed.

Lemma can_be_cancelled_iff_pending_or_confirmed_witness :
  Booking_can_be_cancelled 15 (scenario_booking 10 20 pending) = true
  ∧ Booking_is_active 15 (scenario_booking 10 20 pending) = false.
Proof.
  destruct (can_be_cancelled_iff_pending_or_confirmed 15
              (scenario_booking 10 20 pending)) as (Hiff & _ & _ & Hnever).
  split; [apply Hiff; by left|apply Hnever; by left].
Defined.

(** C4 as stated fails: it is not the case that [can_be_cancelled] holds
    iff the status is pending or confirmed and today lies outside
    [[check_in, check_out]]. A pending booking over days 10 to 20 is
    cancellable on day 15. *)
Lemma can_be_cancelled_ignores_dates :
  ¬ (∀ today (b : Booking),
       Booking_can_be_cancelled today b = true ↔
       (status b = pending ∨ status b = confirmed) ∧ ¬ live today b).
Proof.
  intros Hclaim.
  destruct (Hclaim 15 (scenario_booking 10 20 pending)) as [Hlive _].
  destruct (Hlive eq_refl) as [_ Hout]. apply Hout. by vm_compute.
Qed.

(** ** Creation path *)

Lemma is_available_false table self ci co :
  Listing_is_available table self ci co = false ↔
  ¬ free_of_conflicts table self ci co.
Proof. by rewrite <- is_available_true, not_true_iff_false. Qed.

(** The rules before position [i] of an order, one hypothesis each. *)
Ltac earlier_rule Hprev j :=
  try (let H := fresh "Hpass" in
       pose proof (Hprev j _ ltac:(lia) eq_refl) as H; simpl in H).

Ltac earlier_rules Hprev :=
  earlier_rule Hprev 0%nat; earlier_rule Hprev 1%nat;
  earlier_rule Hprev 2%nat; earlier_rule Hprev 3%nat;
  earlier_rule Hprev 4%nat.

(** The rules before the reported one are not violated. *)
Ltac rules_before :=
  let j := fresh "j" in
  let Hj := fresh "Hj" in
  let Hr := fresh "Hr" in
  intros j ? Hj Hr;
  do 6 (destruct j as [|j];
        [first [lia | injection Hr as <-; simpl; first [lia | tauto]]|]);
  lia.

Lemma validate_Raise_iff today table data e :
  CreateBookingSerializer.validate today table data = Raise e ↔
  reports_first_violation validate_order today table data e.
Proof.
  unfold reports_first_violation, validate_order. split.
  - validate_cases; intros [= <-];
      match goal with
      | H : Listing_is_available _ _ _ _ = true |- _ =>
          apply is_available_true in H
      | H : Listing_is_available _ _ _ _ = false |- _ =>
          apply is_available_false in H
      end;
      match goal with
      | |- context [error_of _ _] => idtac
      end.
    all: first
      [ exists 0%nat, date_ordering; simpl; split_and!;
        [done|lia|done|rules_before]
      | exists 1%nat, check_in_not_past; simpl; split_and!;
        [done|lia|done|rules_before]
      | exists 2%nat, availability; simpl; split_and!;
        [done|done|done|rules_before]
      | exists 3%nat, guest_ceiling; simpl; split_and!;
        [done|lia|done|rules_before]
      | exists 4%nat, minimum_stay_bound; simpl; split_and!;
        [done|lia|done|rules_before]
      | exists 5%nat, maximum_stay_bound; simpl; split_and!;
        [done|lia|done|rules_before] ].
  - intros (i & r & Hi & Hv & -> & Hprev).
    destruct i as [|[|[|[|[|[|i]]]]]]; simpl in Hi; try discriminate;
      injection Hi as <-; simpl in Hv;
      earlier_rules Hprev; clear Hprev;
      validate_cases;
      repeat match goal with
      | H : Listing_is_available _ _ _ _ = true |- _ =>
          apply is_available_true in H
      | H : Listing_is_available _ _ _ _ = false |- _ =>
          apply is_available_false in H
      end;
      first [done | lia | tauto].
Qed.

Lemma validate_Ok_iff today table data validated_data :
  CreateBookingSerializer.validate today table data = Ok validated_data ↔
  validated_data =
    (data, CreateBookingSerializer.data_check_out data
           - CreateBookingSerializer.data_check_in data)
  ∧ ∀ r, ¬ violates today table data r.
Proof.
  split.
  - intros Hv. destruct (validate_Ok_inv _ _ _ _ Hv) as [-> _].
    split; [done|]. intros r Hr.
    assert (CreateBookingSerializer.validate today table data
            = Raise (error_of data r) → False) as Hno by (by rewrite Hv).
    revert Hv Hno. validate_cases; try discriminate. intros _ _.
    apply is_available_true in Heqb.
    destruct r; simpl in Hr; first [lia | tauto].
  - intros [-> Hpass].
    pose proof (Hpass date_ordering) as H1.
    pose proof (Hpass check_in_not_past) as H2.
    pose proof (Hpass availability) as H3.
    pose proof (Hpass guest_ceiling) as H4.
    pose proof (Hpass minimum_stay_bound) as H5.
    pose proof (Hpass maximum_stay_bound) as H6.
    simpl in *. validate_cases; try lia; [done|].
    apply is_available_false in Heqb. tauto.
Qed.

(** The view answers as [validate] decides, once the fields are valid. *)
Lemma create_unfold today now user data db :
  1 ≤ CreateBookingSerializer.data_number_of_guests data →
  BookingViewSet.create today now user data db =
  match CreateBookingSerializer.validate today (bookings db) data with
  | Raise e => (db, HTTP_400 e)
  | Ok validated_data =>
      let row := CreateBookingSerializer.create_row now user validated_data in
      (Booking_save now (next_pk (bookings db)) row db, HTTP_201 row)
  end.
Proof.
  intros Hg.
  unfold BookingViewSet.create, CreateBookingSerializer.to_internal_value.
  rewrite (bool_decide_eq_false_2 (_ < 1)) by lia. simpl.
  by destruct (CreateBookingSerializer.validate _ _ _).
Qed.

(** A request the view rejects leaves the database as it was. *)
Lemma create_rejected_unchanged today now user data db db' e :
  BookingViewSet.create today now user data db = (db', HTTP_400 e) → db' = db.
Proof.
  unfold BookingViewSet.create.
  destruct (_ ≫= _) as [vd|e']; simpl; [|by intros [= <- _]].
  discriminate.
Qed.

Lemma next_pk_fresh {A} (table : gmap Z A) : table !! next_pk table = None.
Proof. apply not_elem_of_dom, is_fresh. Qed.




(** ** Check-in in the past *)




(** ** Lifecycle timestamps *)

(** The timestamps one accepted update sets, on any row: entering
    confirmed sets [confirmed_at] and leaves [cancelled_at], entering
    cancelled sets [cancelled_at] and leaves [confirmed_at], every other
    transition leaves both; [updated_at], an auto_now column, is refreshed
    by the save. The second part follows a created row along
    pending -> confirmed -> active. *)
Lemma status_update_timestamps :
  (∀ now instance value,
     legal_transition (status instance) value →
     let saved := BookingStatusSerializer.update now instance value in
     BookingStatusSerializer.save now instance value = Ok saved
     ∧ status saved = value ∧ updated_at saved = now
     ∧ (value = confirmed →
          confirmed_at saved = Some now
          ∧ cancelled_at saved = cancelled_at instance)
     ∧ (value = cancelled →
          cancelled_at saved = Some now
          ∧ confirmed_at saved = confirmed_at instance)
     ∧ (value ≠ confirmed → value ≠ cancelled →
          confirmed_at saved = confirmed_at instance
          ∧ cancelled_at saved = cancelled_at instance))
  ∧ (∀ now user validated_data t1 t2,
       let created :=
         CreateBookingSerializer.create_row now user validated_data in
       let b1 := BookingStatusSerializer.update t1 created confirmed in
       let b2 := BookingStatusSerializer.update t2 b1 active in
       status created = pending ∧ confirmed_at created = None
       ∧ cancelled_at created = None
       ∧ BookingStatusSerializer.save t1 created confirmed = Ok b1
       ∧ BookingStatusSerializer.save t2 b1 active = Ok b2
       ∧ confirmed_at b1 = Some t1 ∧ cancelled_at b1 = None
       ∧ status b2 = active
       ∧ confirmed_at b2 = Some t1 ∧ cancelled_at b2 = None).
Proof.
  split.
  - intros now instance value Hlegal saved.
    split.
    { unfold BookingStatusSerializer.save.
      by rewrite (validate_status_legal _ _ Hlegal). }
    apply valid_transitions_legal in Hlegal. subst saved.
    unfold BookingStatusSerializer.update.
    destruct (status instance) eqn:Hs, value; simpl in Hlegal;
      repeat (apply elem_of_cons in Hlegal as [Hlegal|Hlegal];
              try discriminate);
      try (by apply elem_of_nil in Hlegal);
      simpl; rewrite ?Hs; simpl; split_and!; done.
  - intros now user validated_data t1 t2 created b1 b2.
    subst b2 b1 created.
    unfold BookingStatusSerializer.save.
    rewrite !validate_status_legal; [done|..];
      apply (bool_decide_unpack _); by vm_compute.
Qed.

Example status_update_timestamps_scenario :
  let b := scenario_booking 10 13 pending in
  let b1 := BookingStatusSerializer.update 5 b confirmed in
  let b2 := BookingStatusSerializer.update 7 b1 active in
  BookingStatusSerializer.save 5 b confirmed = Ok b1
  ∧ confirmed_at b1 = Some 5
  ∧ BookingStatusSerializer.save 7 b1 active = Ok b2
  ∧ confirmed_at b2 = Some 5 ∧ cancelled_at b2 = None.
Proof.
  intros b b1 b2.
  destruct status_update_timestamps as [Hstep _].
  destruct (Hstep 5 b confirmed) as (Hs1 & _ & _ & Hc1 & _);
    [apply (bool_decide_unpack _); by vm_compute|].
  destruct (Hstep 7 b1 active) as (Hs2 & _ & _ & _ & _ & Hc2);
    [apply (bool_decide_unpack _); by vm_compute|].
  destruct (Hc1 eq_refl) as [Hc1a _].
  destruct Hc2 as [Hc2a Hc2b]; [done|done|].
  split_and!; [exact Hs1|exact Hc1a|exact Hs2| |].
  - etrans; [exact Hc2a|exact Hc1a].
  - etrans; [exact Hc2b|by vm_compute].
Qed.

(** ** Cancelling twice *)

Lemma get_object_Some user pk db b :
  BookingViewSet.get_object user pk db = Some b → bookings db !! pk = Some b.
Proof.
  unfold BookingViewSet.get_object, BookingViewSet.get_queryset.
  destruct (is_staff user); [done|].
  by intros [? _]%map_lookup_filter_Some.
Qed.

(** The [cancel] action on a booking that can be cancelled: [timezone] is
    not a name of [views.py], the request ends in [NameError] and the
    database is as it was. *)
Remark cancel_cancellable_raises today user pk db b :
  BookingViewSet.get_object user pk db = Some b →
  status b = pending ∨ status b = confirmed →
  BookingViewSet.cancel today user pk db = (db, NameError "timezone").
Proof.
  intros Hget Hs%(can_be_cancelled_true today).
  unfold BookingViewSet.cancel. by rewrite Hget, Hs.
Qed.

(** C7. Requesting the cancellation of a booking that is already cancelled
    changes nothing in the database, through the [cancel] action and
    through a status update alike. A requester who can reach the booking is
    answered with the error "This booking cannot be cancelled."
    (respectively "Cannot change status from cancelled to cancelled"); one
    who cannot is answered not found. No exception escapes the view. *)
Theorem cancel_cancelled_rejected today now user pk db b :
  bookings db !! pk = Some b → status b = cancelled →
  (BookingViewSet.cancel today user pk db = (db, HTTP_400_cannot_be_cancelled)
   ∧ BookingViewSet.update now user pk cancelled db
     = (db, HTTP_400 (cannot_change_status cancelled cancelled))
   ∧ BookingViewSet.get_object user pk db = Some b)
  ∨ (BookingViewSet.cancel today user pk db = (db, HTTP_404)
     ∧ BookingViewSet.update now user pk cancelled db = (db, HTTP_404)
     ∧ BookingViewSet.get_object user pk db = None).
Proof.
  intros Hpk Hs.
  unfold BookingViewSet.cancel, BookingViewSet.update.
  destruct (BookingViewSet.get_object user pk db) as [b'|] eqn:Hget;
    [left|by right].
  apply get_object_Some in Hget. rewrite Hpk in Hget. injection Hget as <-.
  unfold Booking_can_be_cancelled, BookingStatusSerializer.validate_status.
  by rewrite Hs.
Qed.

Lemma cancel_cancelled_rejected_witness :
  let db := mkDB {[ 1 := scenario_booking 10 13 cancelled ]} ∅ in
  BookingViewSet.cancel 5 scenario_guest 1 db
  = (db, HTTP_400_cannot_be_cancelled)
  ∧ BookingViewSet.cancel 5 scenario_other 1 db = (db, HTTP_404).
Proof.
  intros db. split.
  - destruct (cancel_cancelled_rejected 5 0 scenario_guest 1 db
                (scenario_booking 10 13 cancelled) eq_refl eq_refl)
      as [(Hc & _ & _)|(_ & _ & Hget)]; [exact Hc|by vm_compute in Hget].
  - destruct (cancel_cancelled_rejected 5 0 scenario_other 1 db
                (scenario_booking 10 13 cancelled) eq_refl eq_refl)
      as [(_ & _ & Hget)|(Hc & _ & _)]; [by vm_compute in Hget|exact Hc].
Defined.

(** ** Reviews *)

(** What a successful [Review.save] stores. *)
Lemma Review_save_Some pk self db db' key saved :
  Review_save pk self db = Some (db', key, saved) →
  ∃ b, bookings db !! rv_booking self = Some b
       ∧ key = default (next_pk (reviews db)) pk
       ∧ saved = {| rv_listing := listing b; rv_booking := rv_booking self;
                    rv_author := guest b; rating := rating self;
                    title := title self; comment := comment self;
                    host_response := host_response self;
                    host_response_at := host_response_at self;
                    is_verified := is_verified self;
                    is_public := is_public self |}
       ∧ db' = {| bookings := bookings db;
                  reviews := <[key := saved]> (reviews db) |}.
Proof.
  unfold Review_save.
  destruct (bookings db !! rv_booking self) as [b|]; simpl; [|done].
  intros [= <- <- <-]. by exists b.
Qed.

(** C9. Whatever listing and author an instance carries, [Review.save]
    stores it with the listing and the guest of its booking: the saved row
    satisfies [listing = booking.listing] and [author = booking.guest], on
    every save, of a new row or of an existing one, and so does every review
    created through the serializer. A save succeeds whenever the booking
    exists. *)
Theorem review_save_derives_from_booking :
  (∀ pk self db db' key saved,
     Review_save pk self db = Some (db', key, saved) →
     derived_from_booking db' saved
     ∧ rv_booking saved = rv_booking self
     ∧ reviews db' !! key = Some saved
     ∧ bookings db' = bookings db)
  ∧ (∀ pk self db,
       is_Some (bookings db !! rv_booking self) →
       is_Some (Review_save pk self db))
  ∧ (∀ user data db db' row,
       ReviewViewSet.create user data db = (db', HTTP_201 row) →
       derived_from_booking db' row).
Proof.
  assert (∀ pk self db db' key saved,
     Review_save pk self db = Some (db', key, saved) →
     derived_from_booking db' saved
     ∧ rv_booking saved = rv_booking self
     ∧ reviews db' !! key = Some saved
     ∧ bookings db' = bookings db) as Hsave.
  { intros pk self db db' key saved
      (b & Hb & -> & -> & ->)%Review_save_Some. simpl.
    split_and!; [by exists b|done|by rewrite lookup_insert_eq|done]. }
  split_and!; [exact Hsave| |].
  - intros pk self db [b Hb]. unfold Review_save. by rewrite Hb.
  - intros user data db db' row. unfold ReviewViewSet.create.
    destruct (_ ≫= _) as [vd|e]; [|done].
    unfold ReviewSerializer.create.
    destruct (Review_save _ _ _) as [[[db'' key] saved]|] eqn:Hs; [|done].
    intros [= <- <-]. by apply Hsave in Hs as [? _].
Qed.

Lemma review_save_derives_from_booking_witness :
  let db := mkDB {[ 1 := scenario_booking 10 13 completed ]} ∅ in
  let supplied :=
    {| rv_listing := mkListing 99 0 0 0 0 0 0 0; rv_booking := 1;
       rv_author := 77; rating := 5; title := "Great stay!";
       comment := "Clean"; host_response := ""; host_response_at := None;
       is_verified := false; is_public := true |} in
  ∃ db' key saved,
    Review_save None supplied db = Some (db', key, saved)
    ∧ rv_listing saved = scenario_listing
    ∧ rv_author saved = user_id scenario_guest.
Proof.
  intros db supplied.
  destruct review_save_derives_from_booking as (Hsave & Htotal & _).
  destruct (Htotal None supplied db) as [[[db' key] saved] Hs];
    [by eexists; vm_compute|].
  exists db', key, saved. split; [exact Hs|].
  destruct (Hsave _ _ _ _ _ _ Hs) as ((b & Hb & Hl & Ha) & Hk & _ & Hbs).
  rewrite Hbs, Hk in Hb. vm_compute in Hb. injection Hb as <-.
  by split.
Defined.

Lemma booking_unique_iff db pk b :
  bookings db !! pk = Some b →
  ReviewSerializer.booking_errors db pk = [] ↔ not_reviewed (reviews db) pk.
Proof.
  intros Hb. unfold ReviewSerializer.booking_errors, not_reviewed.
  rewrite Hb. case_bool_decide as Hf.
  - split; [done|]. intros Hnone. exfalso. apply Hf.
    apply map_empty_filter_2. intros k r Hk. simpl. by apply (Hnone k).
  - split; [|done]. intros _ k r Hk.
    apply (map_empty_filter_1 _ _ Hf k r Hk).
Qed.

Lemma rating_in_range_iff r :
  ReviewSerializer.rating_errors r = [] ↔ 1 ≤ r ≤ 5.
Proof.
  unfold ReviewSerializer.rating_errors.
  repeat case_bool_decide; simpl; split; try done; lia.
Qed.

Lemma CharField_errors_nil max_length allow_blank data :
  (allow_blank = false → strip data ≠ "") →
  (∀ m, max_length = Some m → (len (strip data) ≤ m)%nat) →
  has_null (strip data) = false →
  CharField_errors max_length allow_blank data = [].
Proof.
  intros Hblank Hlen Hnull.
  unfold CharField_errors, CharField_run_validation. rewrite Hnull.
  case_bool_decide as He.
  - destruct allow_blank; [done|]. by destruct Hblank.
  - destruct max_length as [m|]; simpl; [|done].
    specialize (Hlen m eq_refl).
    by rewrite (bool_decide_eq_false_2 (m < _)%nat) by lia.
Qed.

Lemma text_errors_nil data :
  text_ok data →
  ReviewSerializer.title_errors (ReviewSerializer.data_title data) = []
  ∧ ReviewSerializer.comment_errors (ReviewSerializer.data_comment data) = []
  ∧ ReviewSerializer.host_response_errors
      (ReviewSerializer.data_host_response data) = [].
Proof.
  intros (Ht & Hl & Hn & Hc & Hcn & Hhn).
  unfold ReviewSerializer.title_errors, ReviewSerializer.comment_errors,
    ReviewSerializer.host_response_errors.
  rewrite !CharField_errors_nil; try done.
  by intros m [= <-].
Qed.

(** When the view creates a review. *)
Lemma review_create_unfold user data db b :
  bookings db !! ReviewSerializer.data_booking data = Some b →
  text_ok data →
  ReviewViewSet.create user data db =
  let errors :=
    ReviewSerializer.booking_errors db (ReviewSerializer.data_booking data)
    ++ ReviewSerializer.rating_errors (ReviewSerializer.data_rating data) in
  if bool_decide (errors = []) then
    if bool_decide (guest b = user_id user) then
      if bool_decide (status b = completed) then
        let row :=
          ReviewSerializer.create_row user (ReviewSerializer.cleaned data, b)
        in
        ({| bookings := bookings db;
            reviews := <[next_pk (reviews db) := row]> (reviews db) |},
         HTTP_201 row)
      else (db, HTTP_400 booking_not_completed)
    else (db, HTTP_400 not_your_booking)
  else (db, HTTP_400 (field_errors errors)).
Proof.
  intros Hb (Ht & Hc & Hh)%text_errors_nil.
  unfold ReviewViewSet.create, ReviewSerializer.to_internal_value.
  rewrite Hb, Ht, Hc, Hh, !app_nil_r, raise_if_bind. simpl.
  case_bool_decide as Herr; simpl; [|done].
  unfold ReviewSerializer.validate; simpl. rewrite !raise_if_bind.
  case_bool_decide as Hg; simpl; [|done].
  case_bool_decide as Hs; simpl; [|done].
  unfold ReviewSerializer.create, Review_save. simpl. rewrite Hb. simpl.
  unfold ReviewSerializer.create_row. simpl. by rewrite Hg.
Qed.

Lemma one_review_per_booking_insert table row :
  one_review_per_booking table →
  not_reviewed table (rv_booking row) →
  one_review_per_booking (<[next_pk table := row]> table).
Proof.
  intros Hone Hnew k1 k2 r1 r2.
  rewrite !lookup_insert. repeat case_decide; subst.
  - done.
  - intros [= <-] H2 Heq. by destruct (Hnew k2 r2 H2).
  - intros H1 [= <-] Heq. by destruct (Hnew k1 r1 H1).
  - apply Hone.
Qed.

(** C8, as the code has it. For a request whose text fields pass field
    validation (title and comment not blank once surrounding whitespace is
    stripped, title of at most 200 characters, no null character), a review
    of an existing booking is created if and only if the requester is the
    booking's guest, the booking's status is completed, the rating lies in
    [[1,5]] and no review of that booking exists. The created review has
    [is_verified] true and the stripped texts, is the only row added, and
    keeps the table at one review per booking at most; any other answer
    leaves the database as it was. *)
Theorem review_created_iff user data db b :
  bookings db !! ReviewSerializer.data_booking data = Some b →
  text_ok data →
  ((∃ db' row, ReviewViewSet.create user data db = (db', HTTP_201 row))
   ↔ guest b = user_id user
     ∧ status b = completed
     ∧ 1 ≤ ReviewSerializer.data_rating data ≤ 5
     ∧ not_reviewed (reviews db) (ReviewSerializer.data_booking data))
  ∧ (∀ db' row,
       ReviewViewSet.create user data db = (db', HTTP_201 row) →
       is_verified row = true
       ∧ rv_booking row = ReviewSerializer.data_booking data
       ∧ rating row = ReviewSerializer.data_rating data
       ∧ title row = strip (ReviewSerializer.data_title data)
       ∧ comment row = strip (ReviewSerializer.data_comment data)
       ∧ bookings db' = bookings db
       ∧ reviews db' = <[next_pk (reviews db) := row]> (reviews db)
       ∧ (one_review_per_booking (reviews db) →
          one_review_per_booking (reviews db')))
  ∧ (∀ db' response,
       ReviewViewSet.create user data db = (db', response) →
       (∀ row, response ≠ HTTP_201 row) → db' = db).
Proof.
  intros Hb Htext. rewrite (review_create_unfold _ _ _ _ Hb Htext). simpl.
  pose proof (booking_unique_iff db _ b Hb) as Hu.
  pose proof (rating_in_range_iff (ReviewSerializer.data_rating data)) as Hr.
  case_bool_decide as Herr.
  - apply app_eq_nil in Herr as [Hu'%Hu Hr'%Hr].
    repeat case_bool_decide; split_and!;
      try (split; [by intros (? & ? & ?)|tauto]);
      try (by intros ? ? [= <- <-]);
      try (by intros ? ? [= <- _]).
    + split; [done|]. intros _. by eexists _, _.
    + intros db' row [= <- <-]. simpl. split_and!; try done.
      intros Hone. by apply one_review_per_booking_insert.
    + intros db' response [= <- <-] Hno. by destruct (Hno _ eq_refl).
  - split_and!.
    + split; [by intros (? & ? & ?)|].
      intros (_ & _ & Hr'%Hr & Hu'%Hu). destruct Herr. by rewrite Hu', Hr'.
    + by intros ? ? [= ].
    + by intros ? ? [= <- _].
Qed.

Lemma review_created_iff_witness :
  let db := mkDB {[ 1 := scenario_booking 10 13 completed ]} ∅ in
  ∃ db' row,
    ReviewViewSet.create scenario_guest scenario_5_request db
    = (db', HTTP_201 row).
Proof.
  intros db.
  assert (text_ok scenario_5_request) as Htext.
  { apply (bool_decide_unpack _). by vm_compute. }
  destruct (review_created_iff scenario_guest scenario_5_request db
              (scenario_booking 10 13 completed) eq_refl Htext)
    as (Hiff & _ & _).
  apply Hiff. split_and!; [done|done|done|done|].
  intros k r Hk. by vm_compute in Hk.
Defined.

(** Scenario 5: a review of an active booking is rejected; once the booking
    is completed the same request succeeds and the review is verified. *)
Example scenario_5 :
  let active_db := mkDB {[ 1 := scenario_booking 10 13 active ]} ∅ in
  ReviewViewSet.create scenario_guest scenario_5_request active_db
  = (active_db, HTTP_400 booking_not_completed)
  ∧ ∃ completed_db db' row,
      BookingViewSet.update 14 (mkUser 1 true) 1 completed active_db
      = (completed_db, HTTP_200 (touch 14 (scenario_booking 10 13 completed)))
      ∧ ReviewViewSet.create scenario_guest scenario_5_request completed_db
        = (db', HTTP_201 row)
      ∧ is_verified row = true.
Proof.
  intros active_db. split; [by vm_compute|].
  eexists _, _, _. split_and!; [by vm_compute|by vm_compute|done].
Qed.

(** Text fields: surrounding whitespace is stripped before the blank test
    and before the text is stored; the length is counted in characters, so
    200 two-byte characters pass where 201 characters do not. *)
Example text_field_examples :
  CharField_run_validation (Some 200%nat) false "   " = inl [blank]
  ∧ CharField_run_validation (Some 200%nat) false "  Great stay! "
    = inr "Great stay!"
  ∧ CharField_run_validation None true "   " = inr ""
  ∧ len (String.concat "" (replicate 200 "é")) = 200%nat
  ∧ String.length (String.concat "" (replicate 200 "é")) = 400%nat
  ∧ CharField_errors (Some 200%nat) false
      (String.concat "" (replicate 200 "é")) = []
  ∧ CharField_errors (Some 200%nat) false
      (String.concat "" (replicate 201 "a")) = [max_length_exceeded].
Proof. by vm_compute. Qed.

Example blank_title_rejected :
  let db := mkDB {[ 1 := scenario_booking 10 13 completed ]} ∅ in
  ReviewViewSet.create scenario_guest
    {| ReviewSerializer.data_booking := 1; ReviewSerializer.data_rating := 5;
       ReviewSerializer.data_title := "   ";
       ReviewSerializer.data_comment := "Clean and comfortable.";
       ReviewSerializer.data_host_response := "";
       ReviewSerializer.data_is_public := true |} db
  = (db, HTTP_400 (field_errors [title_error blank])).
Proof. by vm_compute. Qed.

(** C8 as stated fails: a completed booking, a rating in [[1,5]] and no
    earlier review do not suffice. A user who is not the booking's guest is
    answered "You can only review your own bookings.". *)
Lemma review_requires_the_guest :
  ¬ (∀ user data db b,
       bookings db !! ReviewSerializer.data_booking data = Some b →
       ((∃ db' row, ReviewViewSet.create user data db = (db', HTTP_201 row))
        ↔ status b = completed
          ∧ 1 ≤ ReviewSerializer.data_rating data ≤ 5
          ∧ not_reviewed (reviews db) (ReviewSerializer.data_booking data))).
Proof.
  intros Hclaim.
  destruct (Hclaim scenario_other scenario_5_request
              (mkDB {[ 1 := scenario_booking 10 13 completed ]} ∅)
              (scenario_booking 10 13 completed) ltac:(by vm_compute))
    as [_ Hcreate].
  destruct Hcreate as (db' & row & Hc).
  - split_and!; [done|done|done|]. intros k r Hk. by vm_compute in Hk.
  - by vm_compute in Hc.
Qed.

(** ** Remaining scenarios *)

(** Scenario 3: five guests on a listing of four, on free dates. *)
Example scenario_3 :
  BookingViewSet.create (date 2024 5 1) 0 scenario_guest scenario_3_request
    (mkDB ∅ ∅)
  = (mkDB ∅ ∅, HTTP_400 (too_many_guests 4)).
Proof. by vm_compute. Qed.

(** Scenario 4: pending -> active is refused; pending -> confirmed -> active
    succeeds and [confirmed_at] keeps the time of the confirmation. *)
Example scenario_4 :
  let b := scenario_booking 10 13 pending in
  BookingStatusSerializer.save 5 b active
  = Raise (cannot_change_status pending active)
  ∧ ∃ b1 b2,
      BookingStatusSerializer.save 5 b confirmed = Ok b1
      ∧ BookingStatusSerializer.save 7 b1 active = Ok b2
      ∧ confirmed_at b1 = Some 5 ∧ confirmed_at b2 = Some 5
      ∧ status b2 = active.
Proof.
  intros b. split; [done|]. by eexists _, _.
Qed.

(** ** Further properties of availability *)

(** X1. Availability is inherited by shorter stays: when a listing is
    available over [[ci,co)] it is available over every range inside it. *)
Theorem is_available_subrange table self ci co ci' co' :
  Listing_is_available table self ci co = true →
  ci ≤ ci' → co' ≤ co →
  Listing_is_available table self ci' co' = true.
Proof.
  rewrite !is_available_true. intros Hfree Hci Hco pk b Hpk Hl Hb [H1 H2].
  apply (Hfree pk b Hpk Hl Hb). unfold ranges_conflict. lia.
Qed.

Lemma is_available_subrange_witness :
  Listing_is_available scenario_table scenario_listing
    (date 2024 6 6) (date 2024 6 8) = true.
Proof.
  apply (is_available_subrange scenario_table scenario_listing
           (date 2024 6 5) (date 2024 6 10)); by vm_compute.
Defined.

Lemma free_of_conflicts_insert table pk row self ci co :
  table !! pk = None →
  ¬ blocking row ∨ listing_id (listing row) ≠ listing_id self →
  free_of_conflicts (<[pk := row]> table) self ci co
  ↔ free_of_conflicts table self ci co.
Proof.
  intros Hfresh Hrow. unfold free_of_conflicts. split.
  - intros Hfree k b Hk. apply (Hfree k).
    rewrite lookup_insert_ne; [done|]. by intros ->; rewrite Hfresh in Hk.
  - intros Hfree k b. rewrite lookup_insert. case_decide as Hk.
    + intros [= <-] Hl Hb. tauto.
    + apply Hfree.
Qed.

Lemma is_available_ignores_non_blocking_aux table pk row self ci co :
  table !! pk = None → ¬ blocking row →
  Listing_is_available (<[pk := row]> table) self ci co
  = Listing_is_available table self ci co.
Proof.
  intros Hfresh Hrow. apply eq_true_iff_eq.
  rewrite !is_available_true. apply free_of_conflicts_insert; [done|by left].
Qed.

(** X2. A booking that is pending, completed or cancelled, or that belongs
    to another listing, takes no dates: adding it to the table changes no
    answer of [is_available] for the listing. *)
Theorem is_available_ignores_non_blocking table pk row self ci co :
  table !! pk = None →
  ¬ blocking row ∨ listing_id (listing row) ≠ listing_id self →
  Listing_is_available (<[pk := row]> table) self ci co
  = Listing_is_available table self ci co.
Proof.
  intros Hfresh Hrow. apply eq_true_iff_eq.
  rewrite !is_available_true. by apply free_of_conflicts_insert.
Qed.

Lemma is_available_ignores_non_blocking_witness :
  Listing_is_available
    (<[ 2 := scenario_booking (date 2024 6 1) (date 2024 6 5) pending ]>
       scenario_table)
    scenario_listing (date 2024 6 5) (date 2024 6 8)
  = Listing_is_available scenario_table scenario_listing
      (date 2024 6 5) (date 2024 6 8).
Proof.
  apply (is_available_ignores_non_blocking scenario_table 2); [done|].
  left. intros [H|H]; discriminate H.
Defined.

(** X3. The listing serializer's [is_available] flag is true exactly when
    every stay within the next 30 days, from today to today + 30, is
    available. *)
Theorem get_is_available_next_30_days today table obj :
  ListingSerializer.get_is_available today table obj = true ↔
  ∀ ci co, today ≤ ci → co ≤ today + 30 →
    Listing_is_available table obj ci co = true.
Proof.
  unfold ListingSerializer.get_is_available. split.
  - intros H ci co Hci Hco.
    revert H. rewrite !is_available_true.
    intros Hfree pk b Hpk Hl Hb [H1 H2].
    apply (Hfree pk b Hpk Hl Hb). unfold ranges_conflict. lia.
  - intros H. apply H; lia.
Qed.

(** ** Further properties of the creation path *)

(** What an accepted request looks like, and the row and database the view
    answers with. *)
Lemma create_201_inv today now user data db db' row :
  BookingViewSet.create today now user data db = (db', HTTP_201 row) →
  1 ≤ CreateBookingSerializer.data_number_of_guests data
  ∧ (∀ r, ¬ violates today (bookings db) data r)
  ∧ row = CreateBookingSerializer.create_row now user
            (data, CreateBookingSerializer.data_check_out data
                   - CreateBookingSerializer.data_check_in data)
  ∧ db' = {| bookings := <[next_pk (bookings db) := row]> (bookings db);
             reviews := reviews db |}.
Proof.
  intros Hc.
  assert (1 ≤ CreateBookingSerializer.data_number_of_guests data) as Hg.
  { revert Hc.
    unfold BookingViewSet.create, CreateBookingSerializer.to_internal_value.
    destruct (decide (CreateBookingSerializer.data_number_of_guests data < 1))
      as [Hlt|Hge]; [|intros _; lia].
    by rewrite (bool_decide_eq_true_2 _ Hlt). }
  split; [done|]. rewrite (create_unfold _ _ _ _ _ Hg) in Hc.
  destruct (CreateBookingSerializer.validate _ _ _) as [vd|e] eqn:Hv;
    [|done].
  apply validate_Ok_iff in Hv as [-> Hpass]. split; [done|].
  by injection Hc as <- <-.
Qed.

(** The row of an accepted request. *)
Lemma created_row_facts today now user data db db' row :
  BookingViewSet.create today now user data db = (db', HTTP_201 row) →
  status row = pending
  ∧ guest row = user_id user
  ∧ confirmed_at row = None ∧ cancelled_at row = None
  ∧ today ≤ check_in row
  ∧ well_formed row
  ∧ BookingViewSet.get_object user (next_pk (bookings db)) db' = Some row.
Proof.
  intros (Hg & Hpass & -> & ->)%create_201_inv.
  pose proof (Hpass date_ordering) as H1.
  pose proof (Hpass check_in_not_past) as H2.
  pose proof (Hpass guest_ceiling) as H4.
  pose proof (Hpass minimum_stay_bound) as H5.
  pose proof (Hpass maximum_stay_bound) as H6.
  simpl in *. split_and!; try done; try lia.
  - unfold well_formed, Booking_duration, Booking_calculate_total_price.
    simpl. split_and!; try done; lia.
  - unfold BookingViewSet.get_object, BookingViewSet.get_queryset. simpl.
    destruct (is_staff user); [by rewrite lookup_insert_eq|].
    apply map_lookup_filter_Some. by rewrite lookup_insert_eq.
Qed.

(** X4. A booking the view creates is pending, belongs to the requester,
    carries no lifecycle timestamp, starts today or later and satisfies the
    invariants of the data model: its stay has a positive length within the
    listing's bounds, its guest count lies between 1 and the listing's
    maximum, its price is the computed one and its deposit the listing's.
    The guest reads it back under its new key. *)
Theorem created_booking_well_formed today now user data db db' row :
  BookingViewSet.create today now user data db = (db', HTTP_201 row) →
  status row = pending
  ∧ guest row = user_id user
  ∧ confirmed_at row = None ∧ cancelled_at row = None
  ∧ today ≤ check_in row
  ∧ well_formed row
  ∧ BookingViewSet.get_object user (next_pk (bookings db)) db' = Some row.
Proof. apply created_row_facts. Qed.

Lemma created_booking_well_formed_witness :
  let db := mkDB ∅ ∅ in
  let row :=
    CreateBookingSerializer.create_row 0 scenario_guest
      (scenario_1_request, 3) in
  well_formed row
  ∧ BookingViewSet.get_object scenario_guest (next_pk (bookings db))
      (Booking_save 0 (next_pk (bookings db)) row db) = Some row.
Proof.
  intros db row.
  assert (BookingViewSet.create (date 2024 5 1) 0 scenario_guest
            scenario_1_request db
          = (Booking_save 0 (next_pk (bookings db)) row db, HTTP_201 row))
    as Hcreate by (by vm_compute).
  destruct (created_booking_well_formed _ _ _ _ _ _ _ Hcreate)
    as (_ & _ & _ & _ & _ & Hwf & Hget).
  by split.
Defined.

(** The checks of [validate] see the table through [is_available] only. *)
Lemma validate_insert_non_blocking today table pk row data :
  table !! pk = None → ¬ blocking row →
  CreateBookingSerializer.validate today (<[pk := row]> table) data
  = CreateBookingSerializer.validate today table data.
Proof.
  intros Hfresh Hrow. unfold CreateBookingSerializer.validate.
  by rewrite is_available_ignores_non_blocking_aux by done.
Qed.

Lemma pending_not_blocking (b : Booking) : status b = pending → ¬ blocking b.
Proof. by intros Hs [H|H]; rewrite Hs in H. Qed.

(** X5. A booking just created holds no dates: it is pending, so the
    listing answers available as before, and the same request, from any
    user at any later time of that day, is accepted again, leaving two
    bookings over the same dates. *)
Theorem creation_does_not_reserve today now user data db db' row :
  BookingViewSet.create today now user data db = (db', HTTP_201 row) →
  (∀ self ci co,
     Listing_is_available (bookings db') self ci co
     = Listing_is_available (bookings db) self ci co)
  ∧ ∀ now' user', ∃ db'' row',
      BookingViewSet.create today now' user' data db' = (db'', HTTP_201 row')
      ∧ bookings db'' !! next_pk (bookings db) = Some row
      ∧ bookings db'' !! next_pk (bookings db') = Some row'
      ∧ next_pk (bookings db') ≠ next_pk (bookings db)
      ∧ check_in row' = check_in row ∧ check_out row' = check_out row
      ∧ listing row' = listing row.
Proof.
  intros Hc.
  destruct (created_row_facts _ _ _ _ _ _ _ Hc) as (Hs & _).
  apply create_201_inv in Hc as (Hg & Hpass & Hrow & ->). simpl.
  assert (¬ blocking row) as Hnb by by apply pending_not_blocking.
  split.
  - intros self ci co.
    apply is_available_ignores_non_blocking_aux; [apply next_pk_fresh|done].
  - intros now' user'. rewrite (create_unfold _ _ _ _ _ Hg). simpl.
    rewrite validate_insert_non_blocking by (apply next_pk_fresh || done).
    destruct (CreateBookingSerializer.validate _ _ _) as [vd|e] eqn:Hv.
    + apply validate_Ok_iff in Hv as [-> _]. eexists _, _. split; [done|].
      simpl.
      assert (next_pk (<[next_pk (bookings db) := row]> (bookings db))
              ≠ next_pk (bookings db)) as Hne.
      { intros Heq.
        pose proof (next_pk_fresh (<[next_pk (bookings db) := row]> (bookings db)))
          as Hf.
        by rewrite Heq, lookup_insert_eq in Hf. }
      rewrite lookup_insert_ne, !lookup_insert_eq by done.
      split_and!; [done|reflexivity|done|by rewrite Hrow..].
    + apply validate_Raise_iff in Hv as (i & r & _ & Hr & _).
      by destruct (Hpass r).
Qed.

Lemma creation_does_not_reserve_witness :
  let db := mkDB ∅ ∅ in
  let row :=
    CreateBookingSerializer.create_row 0 scenario_guest
      (scenario_1_request, 3) in
  let db' := Booking_save 0 (next_pk (bookings db)) row db in
  ∃ db'' row',
    BookingViewSet.create (date 2024 5 1) 7 scenario_other
      scenario_1_request db' = (db'', HTTP_201 row')
    ∧ check_in row' = check_in row ∧ check_out row' = check_out row.
Proof.
  intros db row db'.
  assert (BookingViewSet.create (date 2024 5 1) 0 scenario_guest
            scenario_1_request db = (db', HTTP_201 row))
    as Hcreate by (by vm_compute).
  destruct (creation_does_not_reserve _ _ _ _ _ _ _ Hcreate) as [_ Hagain].
  destruct (Hagain 7 scenario_other)
    as (db'' & row' & Hc & _ & _ & _ & Hci & Hco & _).
  by exists db'', row'.
Defined.

(** X6. Creating a booking keeps the table free of double bookings: if no
    two confirmed or active bookings of a listing conflict before the
    request, none do after it, whatever the answer. *)
Theorem create_preserves_no_double_booking today now user data db db' response :
  no_double_booking (bookings db) →
  BookingViewSet.create today now user data db = (db', response) →
  no_double_booking (bookings db').
Proof.
  intros Hinv Hc.
  destruct response as [x|row|e| | |n|];
    try (revert Hc; unfold BookingViewSet.create;
         destruct (_ ≫= _) as [vd|e']; simpl; discriminate).
  - destruct (created_row_facts _ _ _ _ _ _ _ Hc) as (Hs & _).
    apply create_201_inv in Hc as (_ & _ & _ & ->). simpl.
    pose proof (pending_not_blocking _ Hs) as Hnb.
    intros k1 k2 b1 b2 H1 H2 Hne Hl Hb1 Hb2.
    apply lookup_insert_Some in H1 as [[_ <-]|[_ H1]]; [tauto|].
    apply lookup_insert_Some in H2 as [[_ <-]|[_ H2]]; [tauto|].
    by apply (Hinv k1 k2 b1 b2).
  - by apply create_rejected_unchanged in Hc as ->.
Qed.

Lemma create_preserves_no_double_booking_witness :
  let db := mkDB scenario_busy_table ∅ in
  let answer :=
    BookingViewSet.create (date 2024 5 1) 0 scenario_guest
      scenario_gap_request db in
  no_double_booking (bookings db)
  ∧ (∃ row, answer.2 = HTTP_201 row)
  ∧ size (bookings answer.1) = 3%nat
  ∧ no_double_booking (bookings answer.1).
Proof.
  intros db answer.
  assert (no_double_booking (bookings db)) as Hbefore.
  { intros k1 k2 b1 b2 H1 H2 Hne _ _ _ [Ha Hb].
    simpl in H1, H2. unfold scenario_busy_table in H1, H2.
    apply lookup_insert_Some in H1 as [[<- <-]|[_ H1]];
      [|apply lookup_singleton_Some in H1 as [<- <-]];
      (apply lookup_insert_Some in H2 as [[<- <-]|[_ H2]];
       [|apply lookup_singleton_Some in H2 as [<- <-]]);
      try done; by vm_compute in Ha, Hb. }
  split_and!; [exact Hbefore|by eexists; vm_compute|by vm_compute|].
  exact (create_preserves_no_double_booking (date 2024 5 1) 0 scenario_guest
           scenario_gap_request db answer.1 answer.2 Hbefore
           (surjective_pairing answer)).
Defined.

(** ** Who reaches a booking *)

Lemma get_object_iff user pk db b :
  BookingViewSet.get_object user pk db = Some b ↔
  bookings db !! pk = Some b ∧ may_reach user b.
Proof.
  unfold BookingViewSet.get_object, BookingViewSet.get_queryset, may_reach.
  destruct (is_staff user).
  - split; [intros H; split; [done|by left]|by intros [? _]].
  - rewrite map_lookup_filter_Some. simpl.
    split; [intros [? ?]; split; [done|by right]|].
    by intros [? [?|?]].
Qed.

(** X7. A booking is reached by staff and by its own guest only. For every
    other requester a status update and the [cancel] action answer not
    found and leave the database as it was, as they do for a key that names
    no booking. *)
Theorem booking_reached_by_guest_or_staff user pk db :
  (∀ b, BookingViewSet.get_object user pk db = Some b ↔
        bookings db !! pk = Some b ∧ may_reach user b)
  ∧ ((∀ b, bookings db !! pk = Some b → ¬ may_reach user b) →
     ∀ today now value,
       BookingViewSet.update now user pk value db = (db, HTTP_404)
       ∧ BookingViewSet.cancel today user pk db = (db, HTTP_404)).
Proof.
  split; [intros b; apply get_object_iff|].
  intros Hno today now value.
  unfold BookingViewSet.update, BookingViewSet.cancel.
  destruct (BookingViewSet.get_object user pk db) as [b|] eqn:Hget; [|done].
  apply get_object_iff in Hget as [Hb Hr]. by destruct (Hno b Hb).
Qed.

Lemma booking_reached_by_guest_or_staff_witness :
  let db := mkDB {[ 1 := scenario_booking 10 13 pending ]} ∅ in
  BookingViewSet.update 5 scenario_other 1 confirmed db = (db, HTTP_404)
  ∧ BookingViewSet.cancel 5 scenario_other 1 db = (db, HTTP_404).
Proof.
  intros db.
  destruct (booking_reached_by_guest_or_staff scenario_other 1 db)
    as [_ Hother].
  apply Hother. intros b Hb Hr.
  simpl in Hb. apply lookup_singleton_Some in Hb as [_ <-].
  destruct Hr as [Hr|Hr]; discriminate Hr.
Defined.

(** ** What a status update touches *)

Lemma update_200_inv now user pk value db db' saved :
  BookingViewSet.update now user pk value db = (db', HTTP_200 saved) →
  ∃ instance,
    BookingViewSet.get_object user pk db = Some instance
    ∧ legal_transition (status instance) value
    ∧ saved = BookingStatusSerializer.update now instance value
    ∧ db' = {| bookings := <[pk := saved]> (bookings db);
               reviews := reviews db |}.
Proof.
  unfold BookingViewSet.update.
  destruct (BookingViewSet.get_object user pk db) as [instance|]; [|done].
  destruct (decide (legal_transition (status instance) value)) as [Hl|Hl].
  - rewrite (validate_status_legal _ _ Hl). intros [= <- <-].
    by exists instance.
  - by rewrite (validate_status_illegal _ _ Hl).
Qed.

(** Every answer of [update] but 200 leaves the database as it was. *)
Lemma update_other_unchanged now user pk value db db' response :
  BookingViewSet.update now user pk value db = (db', response) →
  (∀ saved, response ≠ HTTP_200 saved) → db' = db.
Proof.
  unfold BookingViewSet.update.
  destruct (BookingViewSet.get_object user pk db) as [instance|];
    [|by intros [= <- _]].
  destruct (BookingStatusSerializer.validate_status _ _);
    [|by intros [= <- _]].
  intros [= <- <-] Hno. by destruct (Hno _ eq_refl).
Qed.

(** X8. An accepted status update rewrites one row and nothing else: every
    other booking and every review stay as they were, and of the row itself
    the listing, the guest, the dates, the guest count, the requests, the
    price and the deposit are kept. Any other answer changes nothing. *)
Theorem status_update_frame now user pk value db db' response :
  BookingViewSet.update now user pk value db = (db', response) →
  reviews db' = reviews db
  ∧ (∀ k, k ≠ pk → bookings db' !! k = bookings db !! k)
  ∧ ((∀ saved, response ≠ HTTP_200 saved) → db' = db)
  ∧ (∀ saved, response = HTTP_200 saved →
       ∃ instance,
         bookings db !! pk = Some instance
         ∧ bookings db' !! pk = Some saved
         ∧ listing saved = listing instance
         ∧ guest saved = guest instance
         ∧ check_in saved = check_in instance
         ∧ check_out saved = check_out instance
         ∧ number_of_guests saved = number_of_guests instance
         ∧ guest_special_requests saved = guest_special_requests instance
         ∧ total_price saved = total_price instance
         ∧ security_deposit_held saved = security_deposit_held instance).
Proof.
  intros Hu.
  assert ((∃ saved, response = HTTP_200 saved)
          ∨ ∀ saved, response ≠ HTTP_200 saved) as [[saved ->]|Hno].
  { destruct response; try (by right); left; by eexists. }
  - apply update_200_inv in Hu as (instance & Hget & _ & Hs & ->).
    apply get_object_iff in Hget as [Hb _]. simpl.
    split_and!; [done|by intros k Hk; rewrite lookup_insert_ne| |].
    + intros Hno. by destruct (Hno saved).
    + intros ? [= <-]. exists instance. rewrite lookup_insert_eq, Hs.
      by split_and!.
  - rewrite (update_other_unchanged _ _ _ _ _ _ _ Hu Hno).
    split_and!; [done|done|done|].
    intros saved ->. by destruct (Hno saved).
Qed.

Lemma status_update_frame_witness :
  let db := mkDB {[ 1 := scenario_booking 10 13 pending;
                    2 := scenario_booking 20 23 pending ]} ∅ in
  bookings (BookingViewSet.update 5 scenario_guest 1 confirmed db).1 !! 2
  = Some (scenario_booking 20 23 pending).
Proof.
  intros db.
  destruct (status_update_frame 5 scenario_guest 1 confirmed db _ _
              (surjective_pairing _)) as (_ & Hother & _).
  rewrite Hother; [by vm_compute|done].
Defined.

(** ** Status updates and availability *)

(** X9. Confirming a booking does not look at the other bookings: a
    pending booking whose dates conflict with a confirmed or active booking
    of the same listing is confirmed all the same, and the table then holds
    a double booking. *)
Theorem confirmation_ignores_conflicts now user pk1 pk2 db b1 b2 :
  BookingViewSet.get_object user pk1 db = Some b1 →
  status b1 = pending →
  bookings db !! pk2 = Some b2 → pk1 ≠ pk2 →
  listing_id (listing b1) = listing_id (listing b2) →
  blocking b2 →
  ranges_conflict (check_in b1) (check_out b1) (check_in b2) (check_out b2) →
  ∃ db' saved,
    BookingViewSet.update now user pk1 confirmed db = (db', HTTP_200 saved)
    ∧ status saved = confirmed
    ∧ ¬ no_double_booking (bookings db').
Proof.
  intros Hget Hs Hb2 Hne Hl Hblock Hconflict.
  assert (legal_transition (status b1) confirmed) as Hlegal.
  { rewrite Hs. apply (bool_decide_unpack _). by vm_compute. }
  unfold BookingViewSet.update.
  rewrite Hget, (validate_status_legal _ _ Hlegal).
  eexists _, _. split; [reflexivity|]. simpl.
  set (saved := BookingStatusSerializer.update now b1 confirmed).
  assert (listing saved = listing b1 ∧ check_in saved = check_in b1
          ∧ check_out saved = check_out b1 ∧ status saved = confirmed)
    as (Hl' & Hci & Hco & Hst).
  { unfold saved, BookingStatusSerializer.update. by rewrite Hs. }
  split; [done|]. intros Hinv.
  apply (Hinv pk1 pk2 saved b2).
  - by rewrite lookup_insert_eq.
  - by rewrite lookup_insert_ne.
  - done.
  - by rewrite Hl'.
  - by left.
  - done.
  - by rewrite Hci, Hco.
Qed.

Lemma confirmation_ignores_conflicts_witness :
  let db := mkDB {[ 1 := scenario_booking 10 14 confirmed;
                    2 := scenario_booking 12 16 pending ]} ∅ in
  ∃ db' saved,
    BookingViewSet.update 5 scenario_guest 2 confirmed db
    = (db', HTTP_200 saved)
    ∧ status saved = confirmed
    ∧ ¬ no_double_booking (bookings db').
Proof.
  intros db.
  apply (confirmation_ignores_conflicts 5 scenario_guest 2 1 db
           (scenario_booking 12 16 pending)
           (scenario_booking 10 14 confirmed));
    [by vm_compute|done|by vm_compute|done|done|by left|split; by vm_compute].
Defined.

(** X10. What an accepted status update does to availability. After a
    booking is cancelled or completed the listings answer as if its row
    were not in the table: its dates are free again. After a booking with
    [check_in < check_out] is confirmed or made active, its listing is not
    available over the booking's own dates. *)
Theorem status_update_availability now user pk value db db' saved :
  BookingViewSet.update now user pk value db = (db', HTTP_200 saved) →
  (value = cancelled ∨ value = completed →
     ∀ self ci co,
       Listing_is_available (bookings db') self ci co
       = Listing_is_available (delete pk (bookings db)) self ci co)
  ∧ (value = confirmed ∨ value = active →
     check_in saved < check_out saved →
     Listing_is_available (bookings db') (listing saved)
       (check_in saved) (check_out saved) = false).
Proof.
  intros (instance & Hget & Hlegal & Hs & ->)%update_200_inv. simpl.
  assert (status saved = value) as Hstatus.
  { rewrite Hs. unfold BookingStatusSerializer.update.
    by repeat (case_match; simpl). }
  split.
  - intros Hv self ci co. rewrite <- insert_delete_eq.
    apply is_available_ignores_non_blocking_aux; [apply lookup_delete_eq|].
    intros [H|H]; rewrite Hstatus in H; destruct Hv; congruence.
  - intros Hv Hlt. apply is_available_false. intros Hfree.
    apply (Hfree pk saved); [by rewrite lookup_insert_eq|done| |].
    + unfold blocking. rewrite Hstatus. tauto.
    + unfold ranges_conflict. lia.
Qed.

Lemma status_update_availability_witness :
  let db := mkDB {[ 1 := scenario_booking 10 14 confirmed ]} ∅ in
  Listing_is_available
    (bookings (BookingViewSet.update 5 scenario_guest 1 cancelled db).1)
    scenario_listing 10 14
  = Listing_is_available (delete 1 (bookings db)) scenario_listing 10 14.
Proof.
  intros db.
  assert (∃ db' saved,
            BookingViewSet.update 5 scenario_guest 1 cancelled db
            = (db', HTTP_200 saved)) as (db' & saved & Hu)
    by (eexists _, _; by vm_compute).
  destruct (status_update_availability _ _ _ _ _ _ _ Hu) as [Hfree _].
  rewrite Hu. simpl. apply Hfree. by left.
Defined.

(** ** The lifecycle as a whole *)

Lemma save_Ok_inv now b value b' :
  BookingStatusSerializer.save now b value = Ok b' →
  legal_transition (status b) value
  ∧ b' = BookingStatusSerializer.update now b value
  ∧ status b' = value.
Proof.
  unfold BookingStatusSerializer.save. intros Hs.
  destruct (decide (legal_transition (status b) value)) as [Hl|Hl].
  - rewrite (validate_status_legal _ _ Hl) in Hs. injection Hs as <-.
    split_and!; [done|done|].
    unfold BookingStatusSerializer.update. by repeat (case_match; simpl).
  - by rewrite (validate_status_illegal _ _ Hl) in Hs.
Qed.

Lemma save_rank now b value b' :
  BookingStatusSerializer.save now b value = Ok b' →
  (rank (status b) < rank (status b') ≤ 3)%nat.
Proof.
  intros (Hl%valid_transitions_legal & _ & ->)%save_Ok_inv.
  destruct (status b), value; simpl in *;
    repeat (apply elem_of_cons in Hl as [Hl|Hl]; try discriminate);
    try (by apply elem_of_nil in Hl); lia.
Qed.

(** X11. The lifecycle only moves forward and ends: along any run of
    accepted status updates the rank of the status grows by at least one
    at each step, so a run has at most three updates, and no update is
    accepted on a completed or cancelled booking. *)
Theorem lifecycle_is_bounded n b b' :
  updates n b b' →
  (n + rank (status b) ≤ rank (status b'))%nat
  ∧ (n ≤ 3)%nat
  ∧ (status b = completed ∨ status b = cancelled → n = 0%nat ∧ b' = b).
Proof.
  intros Hrun.
  assert ((n + rank (status b) ≤ rank (status b'))%nat
          ∧ (rank (status b') ≤ 3)%nat) as [Hgrow Hmax].
  { induction Hrun as [b|n now value b b1 b2 Hsave Hrun IH].
    - split; [lia|]. destruct (status b); simpl; lia.
    - apply save_rank in Hsave. lia. }
  split_and!; [done|lia|].
  intros Hterminal.
  assert (n = 0%nat) as -> by (destruct Hterminal as [H|H]; rewrite H in Hgrow;
                               simpl in Hgrow; lia).
  split; [done|]. by inversion Hrun.
Qed.

Lemma lifecycle_is_bounded_witness :
  let b := scenario_booking 10 13 pending in
  let b1 := BookingStatusSerializer.update 5 b confirmed in
  let b2 := BookingStatusSerializer.update 7 b1 active in
  (2 + rank (status b) ≤ rank (status b2))%nat.
Proof.
  intros b b1 b2.
  apply (lifecycle_is_bounded 2 b b2).
  apply (updates_step 1 5 confirmed b b1 b2); [done|].
  apply (updates_step 0 7 active b1 b2 b2); [done|].
  apply updates_none.
Defined.

Lemma save_keeps_invariants now b value b' :
  BookingStatusSerializer.save now b value = Ok b' →
  well_formed b → timestamps_match_status b →
  well_formed b' ∧ timestamps_match_status b'
  ∧ listing b' = listing b ∧ guest b' = guest b
  ∧ check_in b' = check_in b ∧ check_out b' = check_out b
  ∧ total_price b' = total_price b.
Proof.
  intros (Hl%valid_transitions_legal & -> & _)%save_Ok_inv Hwf Hts.
  unfold well_formed, timestamps_match_status, Booking_duration,
    Booking_calculate_total_price, BookingStatusSerializer.update in *.
  destruct (status b) eqn:Hs, value; simpl in Hl;
    repeat (apply elem_of_cons in Hl as [Hl|Hl]; try discriminate);
    try (by apply elem_of_nil in Hl);
    simpl; rewrite ?Hs; simpl; split_and!; try done; try tauto.
Qed.

(** The invariants hold all along a run of accepted updates. *)
Lemma updates_keep_invariants n b b' :
  updates n b b' → well_formed b → timestamps_match_status b →
  well_formed b' ∧ timestamps_match_status b'.
Proof.
  induction 1 as [b|n now value b b1 b2 Hsave Hrun IH]; [done|].
  intros Hwf Hts.
  destruct (save_keeps_invariants _ _ _ _ Hsave Hwf Hts) as (Hwf1 & Hts1 & _).
  by apply IH.
Qed.

(** C6. For every booking reached from its creation through accepted
    status updates, and every legal transition of it: entering confirmed
    sets [confirmed_at] to the current time only if it is not already set,
    and it never is at that point; entering cancelled sets [cancelled_at];
    no other transition sets [confirmed_at] or [cancelled_at], and each of
    the two leaves the other timestamp. Along pending -> confirmed ->
    active from the created row, [confirmed_at] is unset, then set by the
    first step, and the second step changes neither timestamp. *)
Theorem lifecycle_timestamps_set_once
    today now0 user data db db' row n b now value :
  BookingViewSet.create today now0 user data db = (db', HTTP_201 row) →
  updates n row b →
  legal_transition (status b) value →
  let saved := BookingStatusSerializer.update now b value in
  BookingStatusSerializer.save now b value = Ok saved
  ∧ (value = confirmed →
       confirmed_at saved
       = match confirmed_at b with Some t => Some t | None => Some now end
       ∧ confirmed_at b = None
       ∧ cancelled_at saved = cancelled_at b)
  ∧ (value = cancelled →
       cancelled_at saved = Some now
       ∧ confirmed_at saved = confirmed_at b)
  ∧ (value ≠ confirmed → value ≠ cancelled →
       confirmed_at saved = confirmed_at b
       ∧ cancelled_at saved = cancelled_at b)
  ∧ (∀ t1 t2,
       let b1 := BookingStatusSerializer.update t1 row confirmed in
       let b2 := BookingStatusSerializer.update t2 b1 active in
       confirmed_at row = None
       ∧ BookingStatusSerializer.save t1 row confirmed = Ok b1
       ∧ confirmed_at b1 = Some t1
       ∧ BookingStatusSerializer.save t2 b1 active = Ok b2
       ∧ confirmed_at b2 = confirmed_at b1
       ∧ cancelled_at b2 = cancelled_at b1).
Proof.
  intros Hc Hrun Hlegal saved.
  destruct (created_row_facts _ _ _ _ _ _ _ Hc)
    as (Hs & _ & Hca & Hcc & _ & Hwf & _).
  assert (timestamps_match_status row) as Hts.
  { unfold timestamps_match_status. by rewrite Hs. }
  destruct (updates_keep_invariants _ _ _ Hrun Hwf Hts) as [_ Htsb].
  split.
  { unfold BookingStatusSerializer.save.
    by rewrite (validate_status_legal _ _ Hlegal). }
  split_and!.
  - intros ->. apply valid_transitions_legal in Hlegal.
    assert (status b = pending) as Hp.
    { destruct (status b); simpl in Hlegal; [done|..];
        repeat (apply elem_of_cons in Hlegal as [Hlegal|Hlegal];
                try discriminate);
        by apply elem_of_nil in Hlegal. }
    unfold timestamps_match_status in Htsb. rewrite Hp in Htsb.
    destruct Htsb as [Hnone _]. subst saved.
    unfold BookingStatusSerializer.update. rewrite Hp, Hnone. by simpl.
  - intros ->. apply valid_transitions_legal in Hlegal. subst saved.
    unfold BookingStatusSerializer.update.
    destruct (status b) eqn:Hb; simpl in Hlegal;
      repeat (apply elem_of_cons in Hlegal as [Hlegal|Hlegal];
              try discriminate);
      try (by apply elem_of_nil in Hlegal); by simpl.
  - intros Hn1 Hn2. apply valid_transitions_legal in Hlegal. subst saved.
    unfold BookingStatusSerializer.update.
    destruct (status b) eqn:Hb, value; simpl in Hlegal;
      repeat (apply elem_of_cons in Hlegal as [Hlegal|Hlegal];
              try discriminate);
      try (by apply elem_of_nil in Hlegal); by simpl.
  - intros t1 t2 b1 b2. subst b2 b1.
    unfold BookingStatusSerializer.save.
    rewrite !validate_status_legal.
    + unfold BookingStatusSerializer.update. rewrite Hs. by simpl.
    + unfold BookingStatusSerializer.update. rewrite Hs. simpl.
      apply (bool_decide_unpack _). by vm_compute.
    + rewrite Hs. apply (bool_decide_unpack _). by vm_compute.
Qed.

Lemma lifecycle_timestamps_set_once_witness :
  let row :=
    CreateBookingSerializer.create_row 0 scenario_guest
      (scenario_1_request, 3) in
  let b1 := BookingStatusSerializer.update 5 row confirmed in
  let b2 := BookingStatusSerializer.update 7 b1 active in
  confirmed_at row = None
  ∧ BookingStatusSerializer.save 5 row confirmed = Ok b1
  ∧ confirmed_at b1 = Some 5
  ∧ BookingStatusSerializer.save 7 b1 active = Ok b2
  ∧ confirmed_at b2 = confirmed_at b1
  ∧ cancelled_at b2 = cancelled_at b1.
Proof.
  intros row b1 b2.
  assert (BookingViewSet.create (date 2024 5 1) 0 scenario_guest
            scenario_1_request (mkDB ∅ ∅)
          = (Booking_save 0 (next_pk (bookings (mkDB ∅ ∅))) row (mkDB ∅ ∅),
             HTTP_201 row))
    as Hcreate by (by vm_compute).
  assert (legal_transition (status row) confirmed) as Hlegal
    by (apply (bool_decide_unpack _); by vm_compute).
  destruct (lifecycle_timestamps_set_once _ _ _ _ _ _ _ 0%nat row 5 confirmed
              Hcreate (updates_none row) Hlegal)
    as (_ & _ & _ & _ & Hpath).
  exact (Hpath 5 7).
Defined.

(** X12. Every state a booking reaches from its creation through accepted
    status updates keeps the invariants of the data model (positive stay
    within the listing's bounds, guest count within the ceiling, price
    equal to nights * base_price + cleaning_fee, deposit as held) and
    timestamps that match its status: none while pending, [confirmed_at]
    set and [cancelled_at] unset once confirmed, active or completed,
    [cancelled_at] set once cancelled. Listing, guest, dates and price are
    those of the creation. *)
Theorem lifecycle_keeps_invariants today now user data db db' row n b :
  BookingViewSet.create today now user data db = (db', HTTP_201 row) →
  updates n row b →
  well_formed b ∧ timestamps_match_status b
  ∧ listing b = listing row ∧ guest b = user_id user
  ∧ check_in b = check_in row ∧ check_out b = check_out row
  ∧ total_price b = total_price row.
Proof.
  intros Hc Hrun.
  destruct (created_row_facts _ _ _ _ _ _ _ Hc)
    as (Hs & Hg & Hca & Hcc & _ & Hwf & _).
  assert (timestamps_match_status row) as Hts.
  { unfold timestamps_match_status. by rewrite Hs. }
  rewrite <- Hg. clear Hc Hs Hca Hcc Hg.
  induction Hrun as [b|n now' value b b1 b2 Hsave Hrun IH]; [done|].
  destruct (save_keeps_invariants _ _ _ _ Hsave Hwf Hts)
    as (Hwf1 & Hts1 & Hl & Hg & Hci & Hco & Hp).
  destruct (IH Hwf1 Hts1) as (? & ? & -> & -> & -> & -> & ->).
  by split_and!.
Qed.

Lemma lifecycle_keeps_invariants_witness :
  let row :=
    CreateBookingSerializer.create_row 0 scenario_guest
      (scenario_1_request, 3) in
  let b1 := BookingStatusSerializer.update 5 row confirmed in
  let b2 := BookingStatusSerializer.update 7 b1 cancelled in
  well_formed b2 ∧ timestamps_match_status b2.
Proof.
  intros row b1 b2.
  assert (BookingViewSet.create (date 2024 5 1) 0 scenario_guest
            scenario_1_request (mkDB ∅ ∅)
          = (Booking_save 0 (next_pk (bookings (mkDB ∅ ∅))) row (mkDB ∅ ∅),
             HTTP_201 row))
    as Hcreate by (by vm_compute).
  assert (updates 2 row b2) as Hrun.
  { apply (updates_step 1 5 confirmed row b1 b2); [done|].
    apply (updates_step 0 7 cancelled b1 b2 b2); [done|].
    apply updates_none. }
  destruct (lifecycle_keeps_invariants _ _ _ _ _ _ _ _ _ Hcreate Hrun)
    as (Hwf & Hts & _).
  by split.
Defined.

(** ** The [cancel] action *)

(** X13. The [cancel] action never cancels: whatever the request, the
    database is left as it was and no booking is returned. The answer is
    not found when the requester cannot reach the booking, the error
    "This booking cannot be cancelled." when its status is active,
    completed or cancelled, and an uncaught [NameError] on [timezone] when
    its status is pending or confirmed, the only bookings that can be
    cancelled. *)
Theorem cancel_never_persists today user pk db :
  ∃ response,
    BookingViewSet.cancel today user pk db = (db, response)
    ∧ (∀ b, response ≠ HTTP_200 b)
    ∧ (BookingViewSet.get_object user pk db = None → response = HTTP_404)
    ∧ (∀ b, BookingViewSet.get_object user pk db = Some b →
         (status b = pending ∨ status b = confirmed →
            response = NameError "timezone")
         ∧ (status b = active ∨ status b = completed ∨ status b = cancelled →
            response = HTTP_400_cannot_be_cancelled)).
Proof.
  unfold BookingViewSet.cancel.
  destruct (BookingViewSet.get_object user pk db) as [b|] eqn:Hget.
  - destruct (Booking_can_be_cancelled today b) eqn:Hcan.
    + eexists. split_and!; [done|done|done|].
      intros ? [= <-]. split; [done|].
      apply can_be_cancelled_true in Hcan.
      intros [H|[H|H]]; destruct Hcan as [H'|H']; congruence.
    + eexists. split_and!; [done|done|done|].
      intros ? [= <-]. split; [|done].
      intros H%(can_be_cancelled_true today). congruence.
  - eexists. split_and!; [done|done|done|done].
Qed.

(** ** Host responses *)

Lemma review_get_object_iff pk db r :
  ReviewResponse.get_object pk db = Some r ↔
  reviews db !! pk = Some r ∧ is_public r = true.
Proof.
  unfold ReviewResponse.get_object, ReviewResponse.get_queryset.
  by rewrite map_lookup_filter_Some.
Qed.

(** The text [is_valid] hands on. *)
Lemma is_valid_inr data validated_data :
  ReviewResponse.is_valid data = inr validated_data →
  validated_data = strip <$> data
  ∧ ∀ text, data = Some text → has_null (strip text) = false.
Proof.
  unfold ReviewResponse.is_valid, CharField_run_validation.
  destruct data as [text|]; [|by intros [= <-]].
  case_bool_decide as Hblank; simpl.
  - intros [= <-]. split; [by rewrite Hblank|].
    intros ? [= <-]. by rewrite Hblank.
  - destruct (has_null (strip text)) eqn:Hnull; simpl; [done|].
    intros [= <-]. split; [done|]. by intros ? [= <-].
Qed.

Lemma is_valid_no_null text :
  has_null (strip text) = false →
  ReviewResponse.is_valid (Some text) = inr (Some (strip text)).
Proof.
  intros Hnull. unfold ReviewResponse.is_valid, CharField_run_validation.
  rewrite Hnull. case_bool_decide as Hblank; simpl; [by rewrite Hblank|done].
Qed.

(** X14. The [respond] action accepts a response from the host of the
    reviewed listing only, and only for a public review. An accepted
    response rewrites that one review: its text becomes the text sent with
    surrounding whitespace stripped (it is kept when the request carries
    none), [host_response_at] becomes the current time, listing and author
    are those of the booking, and rating, title, comment and flags are
    kept. A requester who is not the host is answered forbidden; every
    answer but 200 leaves the database as it was. *)
Theorem respond_only_by_host now user pk data db db' result :
  ReviewResponse.respond now user pk data db = (db', result) →
  (∀ saved, result = respond_200 saved →
     ∃ review b,
       reviews db !! pk = Some review ∧ is_public review = true
       ∧ host (rv_listing review) = user_id user
       ∧ bookings db !! rv_booking review = Some b
       ∧ bookings db' = bookings db
       ∧ reviews db' = <[pk := saved]> (reviews db)
       ∧ host_response saved
         = default (host_response review) (strip <$> data)
       ∧ host_response_at saved = Some now
       ∧ rv_listing saved = listing b ∧ rv_author saved = guest b
       ∧ rv_booking saved = rv_booking review
       ∧ rating saved = rating review ∧ title saved = title review
       ∧ comment saved = comment review
       ∧ is_verified saved = is_verified review
       ∧ is_public saved = is_public review)
  ∧ ((∀ saved, result ≠ respond_200 saved) → db' = db)
  ∧ (∀ review,
       reviews db !! pk = Some review → is_public review = true →
       host (rv_listing review) ≠ user_id user →
       result = respond_403 ∧ db' = db).
Proof.
  unfold ReviewResponse.respond.
  destruct (ReviewResponse.get_object pk db) as [review|] eqn:Hget.
  - apply review_get_object_iff in Hget as [Hr Hp].
    case_bool_decide as Hhost; simpl.
    + destruct (ReviewResponse.is_valid data) as [errors|vd] eqn:Hvalid.
      { intros [= <- <-]. split_and!; [done|done|].
        intros review' Hr'. rewrite Hr in Hr'. by injection Hr' as <-. }
      apply is_valid_inr in Hvalid as [-> _].
      destruct (HostResponseSerializer.update _ _ _ _ _)
        as [[[db1 key] saved]|] eqn:Hu.
      * apply Review_save_Some in Hu as (b & Hb & -> & -> & ->).
        simpl in *. intros [= <- <-]. split_and!.
        -- intros ? [= <-]. exists review, b. by split_and!.
        -- intros Hno. by destruct (Hno _ eq_refl).
        -- intros review' Hr'. rewrite Hr in Hr'. injection Hr' as <-.
           done.
      * intros [= <- <-]. split_and!; [done|done|].
        intros review' Hr'. rewrite Hr in Hr'. by injection Hr' as <-.
    + intros [= <- <-]. by split_and!.
  - intros [= <- <-]. split_and!; [done|done|].
    intros review Hr Hp.
    assert (ReviewResponse.get_object pk db = Some review) as Hget'
      by by apply review_get_object_iff.
    congruence.
Qed.

Lemma respond_only_by_host_witness :
  (∃ db' saved,
     ReviewResponse.respond 50 scenario_host 1 (Some "  Thank you! ")
       scenario_reviewed_db = (db', respond_200 saved)
     ∧ host_response saved = "Thank you!"
     ∧ host_response_at saved = Some 50
     ∧ reviews db' !! 1 = Some saved)
  ∧ (ReviewResponse.respond 50 scenario_guest 1 (Some "  Thank you! ")
       scenario_reviewed_db).2 = respond_403.
Proof.
  split.
  - assert (∃ db' saved,
              ReviewResponse.respond 50 scenario_host 1 (Some "  Thank you! ")
                scenario_reviewed_db = (db', respond_200 saved))
      as (db' & saved & Hrespond) by (eexists _, _; by vm_compute).
    exists db', saved. split; [exact Hrespond|].
    destruct (respond_only_by_host _ _ _ _ _ _ _ Hrespond) as (Hok & _ & _).
    destruct (Hok saved eq_refl)
      as (review & b & Hr & _ & _ & _ & _ & Hrs & Htext & Htime & _).
    vm_compute in Hr. injection Hr as <-.
    split_and!; [exact Htext|exact Htime|]. rewrite Hrs.
    apply lookup_insert_eq.
  - destruct (respond_only_by_host 50 scenario_guest 1
                (Some "  Thank you! ") scenario_reviewed_db _ _
                (surjective_pairing _)) as (_ & _ & Hforbidden).
    apply (Hforbidden scenario_review); by vm_compute.
Defined.

(** An accepted response, in full. *)
Lemma respond_accepted now user pk text db review b :
  ReviewResponse.get_object pk db = Some review →
  bookings db !! rv_booking review = Some b →
  host (rv_listing review) = user_id user →
  has_null (strip text) = false →
  let saved :=
    {| rv_listing := listing b; rv_booking := rv_booking review;
       rv_author := guest b; rating := rating review;
       title := title review; comment := comment review;
       host_response := strip text; host_response_at := Some now;
       is_verified := is_verified review;
       is_public := is_public review |} in
  ReviewResponse.respond now user pk (Some text) db
  = ({| bookings := bookings db;
        reviews := <[pk := saved]> (reviews db) |}, respond_200 saved).
Proof.
  intros Hget Hb Hhost Hnull. unfold ReviewResponse.respond.
  rewrite Hget, (bool_decide_eq_true_2 _ Hhost), (is_valid_no_null _ Hnull).
  simpl. unfold HostResponseSerializer.update, Review_save. simpl.
  by rewrite Hb.
Qed.

(** X15. A host response is not attached once and for all: on a review
    whose listing is its booking's, the host who has responded can respond
    again, and the second text and time replace the first. The texts, free
    of null characters, are stored stripped of surrounding whitespace. *)
Theorem host_response_is_replaced now1 now2 user pk text1 text2 db review :
  ReviewResponse.get_object pk db = Some review →
  derived_from_booking db review →
  host (rv_listing review) = user_id user →
  has_null (strip text1) = false → has_null (strip text2) = false →
  ∃ db1 saved1 db2 saved2,
    ReviewResponse.respond now1 user pk (Some text1) db
      = (db1, respond_200 saved1)
    ∧ host_response saved1 = strip text1
    ∧ host_response_at saved1 = Some now1
    ∧ ReviewResponse.respond now2 user pk (Some text2) db1
      = (db2, respond_200 saved2)
    ∧ host_response saved2 = strip text2
    ∧ host_response_at saved2 = Some now2
    ∧ reviews db2 !! pk = Some saved2.
Proof.
  intros Hget (b & Hb & Hl & Ha) Hhost Hn1 Hn2.
  pose proof Hget as [Hr Hp]%review_get_object_iff.
  pose proof (respond_accepted now1 user pk text1 db review b
                Hget Hb Hhost Hn1) as H1.
  simpl in H1. eexists _, _. eexists _, _.
  split; [exact H1|]. split; [done|]. split; [done|].
  match type of H1 with _ = (?db1, respond_200 ?saved1) =>
    pose proof (respond_accepted now2 user pk text2 db1 saved1 b) as H2
  end.
  simpl in H2. rewrite H2.
  - split; [reflexivity|]. split; [done|]. split; [done|].
    simpl. by rewrite lookup_insert_eq.
  - apply review_get_object_iff. simpl. by rewrite lookup_insert_eq.
  - done.
  - by rewrite <- Hl.
  - done.
Qed.

Lemma host_response_is_replaced_witness :
  ∃ db1 saved1 db2 saved2,
    ReviewResponse.respond 50 scenario_host 1 (Some " Thank you! ")
      scenario_reviewed_db = (db1, respond_200 saved1)
    ∧ host_response saved1 = strip " Thank you! "
    ∧ host_response_at saved1 = Some 50
    ∧ ReviewResponse.respond 60 scenario_host 1 (Some "Come again.") db1
      = (db2, respond_200 saved2)
    ∧ host_response saved2 = strip "Come again."
    ∧ host_response_at saved2 = Some 60
    ∧ reviews db2 !! 1 = Some saved2.
Proof.
  apply (host_response_is_replaced 50 60 scenario_host 1 " Thank you! "
           "Come again." scenario_reviewed_db scenario_review);
    [by vm_compute| |done|by vm_compute|by vm_compute].
  exists (scenario_booking 10 13 completed). by vm_compute.
Defined.

(** ** Review counts *)

(** X16. Creating a review raises the review count of the booking's
    listing by one and leaves the count of every other listing. *)
Theorem review_count_after_create user data db db' row self :
  ReviewViewSet.create user data db = (db', HTTP_201 row) →
  Listing_review_count (reviews db') self
  = if decide (listing_id (rv_listing row) = listing_id self)
    then S (Listing_review_count (reviews db) self)
    else Listing_review_count (reviews db) self.
Proof.
  unfold ReviewViewSet.create.
  destruct (_ ≫= _) as [vd|e]; [|done].
  unfold ReviewSerializer.create.
  destruct (Review_save _ _ _) as [[[db1 key] saved]|] eqn:Hs; [|done].
  apply Review_save_Some in Hs as (b & Hb & -> & -> & ->).
  intros [= <- <-]. simpl. unfold Listing_review_count.
  pose proof (next_pk_fresh (reviews db)) as Hfresh.
  case_decide as Hl.
  - rewrite map_filter_insert_True by done.
    apply map_size_insert_None, map_lookup_filter_None. by left.
  - rewrite map_filter_insert_False by done.
    by rewrite delete_id.
Qed.

Lemma review_count_after_create_witness :
  let db := mkDB {[ 1 := scenario_booking 10 13 completed ]} ∅ in
  Listing_review_count
    (reviews (ReviewViewSet.create scenario_guest scenario_5_request db).1)
    scenario_listing = 1%nat.
Proof.
  intros db.
  assert (∃ db' row,
            ReviewViewSet.create scenario_guest scenario_5_request db
            = (db', HTTP_201 row) ∧ rv_listing row = scenario_listing)
    as (db' & row & Hc & Hl) by (eexists _, _; by vm_compute).
  rewrite Hc. simpl.
  rewrite (review_count_after_create _ _ _ _ _ scenario_listing Hc), Hl.
  by vm_compute.
Defined.

(** ** Listing search by dates *)

Lemma blocking_iff (b : Booking) :
  blocking b ↔ status b ∈ [confirmed; active].
Proof.
  unfold blocking. rewrite !elem_of_cons, elem_of_nil. tauto.
Qed.

Lemma unavailable_listings_iff table ci co (self : Listing) :
  listing_id self ∈ ListingViewSet.unavailable_listings table ci co ↔
  Listing_is_available table self ci co = false.
Proof.
  rewrite is_available_false. split.
  - intros Hin Hfree. unfold ListingViewSet.unavailable_listings in Hin.
    apply elem_of_map_img in Hin as [pk Hpk].
    apply lookup_fmap_Some in Hpk as (b & Hl & Hb).
    apply map_lookup_filter_Some in Hb as [Hb ([H1 H2] & Hs)]. simpl in *.
    apply (Hfree pk b Hb Hl); [by apply blocking_iff|].
    unfold ranges_conflict. lia.
  - intros Hnot.
    destruct (decide (listing_id self
                      ∈ ListingViewSet.unavailable_listings table ci co))
      as [|Hnin]; [done|].
    exfalso. apply Hnot. intros pk b Hb Hl Hblock [H1 H2]. apply Hnin.
    unfold ListingViewSet.unavailable_listings.
    apply elem_of_map_img. exists pk.
    apply lookup_fmap_Some. exists b. split; [done|].
    apply map_lookup_filter_Some. split; [done|].
    unfold ListingViewSet.overlapping_any. simpl.
    split; [lia|by apply blocking_iff].
Qed.

(** X17. The list of listings filtered by dates agrees with
    [Listing.is_available]: with both dates given, a listing is returned
    exactly when its status is active and it is available over the dates;
    with a date missing, exactly when its status is active. *)
Theorem listing_queryset_agrees_with_is_available
    listings table check_in check_out k r :
  listing_id (row_listing r) = k →
  ListingViewSet.get_queryset listings table check_in check_out !! k = Some r
  ↔ listings !! k = Some r ∧ row_status r = listing_active
    ∧ ∀ ci co, check_in = Some ci → check_out = Some co →
        Listing_is_available table (row_listing r) ci co = true.
Proof.
  intros Hk. unfold ListingViewSet.get_queryset.
  destruct check_in as [ci|], check_out as [co|];
    rewrite ?map_lookup_filter_Some; simpl;
    try (split; [intros [? ?]; by split_and!|by intros (? & ? & _)]).
  rewrite <- Hk, unavailable_listings_iff, not_false_iff_true.
  split.
  - intros [[? ?] ?]. split_and!; [done|done|]. by intros ? ? [= <-] [= <-].
  - intros (? & ? & Ha). split_and!; [done|done|]. by apply Ha.
Qed.

Lemma listing_queryset_agrees_with_is_available_witness :
  ListingViewSet.get_queryset
    {[ 1 := mkListingRow scenario_listing listing_active ]} scenario_table
    (Some (date 2024 6 5)) (Some (date 2024 6 8)) !! 1
  = Some (mkListingRow scenario_listing listing_active).
Proof.
  apply (listing_queryset_agrees_with_is_available _ _ _ _ 1
           (mkListingRow scenario_listing listing_active)); [done|].
  split_and!; [done|done|]. intros ci co [= <-] [= <-]. by vm_compute.
Defined.

(** ** Sample bookings *)

(** X18. The seeding command never draws a status: with the check-in 1 to
    180 days before the first reading of today, a stay of 2 to 14 nights
    and a later reading no earlier than the first, a sample booking is
    completed when its check-out is before today and active otherwise,
    whatever [random.choice(['pending', 'confirmed'])] would give. *)
Theorem sample_status_never_drawn today0 today days_ago duration pick :
  1 ≤ days_ago ≤ 180 → 2 ≤ duration ≤ 14 → today0 ≤ today →
  let dates := sample_dates today0 days_ago duration in
  sample_status today dates pick
  = (if bool_decide (dates.2 < today) then completed else active)
  ∧ dates.1 < today ∧ dates.1 < dates.2
  ∧ sample_status today dates pick ≠ pending
  ∧ sample_status today dates pick ≠ confirmed.
Proof.
  intros Hd Hn Ht. unfold sample_dates, sample_status. simpl.
  repeat case_bool_decide; split_and!; try done; lia.
Qed.

Lemma sample_status_never_drawn_witness :
  sample_status 100 (sample_dates 100 5 7) pending = active
  ∧ sample_status 100 (sample_dates 100 9 7) confirmed = completed.
Proof.
  split.
  - destruct (sample_status_never_drawn 100 100 5 7 pending) as [-> _];
      done || lia.
  - destruct (sample_status_never_drawn 100 100 9 7 confirmed) as [-> _];
      done || lia.
Defined.

(** ** How a status is reached *)

(** X19. The number of accepted updates that lead a pending booking to a
    status is fixed by that status: none for pending, one for confirmed,
    two for active, three for completed, and one or two for cancelled. A
    completed booking, the only kind that can be reviewed, has been
    confirmed and active before. *)
Theorem status_reached_after n b b' :
  updates n b b' → status b = pending →
  match status b' with
  | pending => n = 0%nat
  | confirmed => n = 1%nat
  | active => n = 2%nat
  | completed => n = 3%nat
  | cancelled => n = 1%nat ∨ n = 2%nat
  end.
Proof.
  assert (∀ now x value y,
            BookingStatusSerializer.save now x value = Ok y →
            (status x, status y) ∈ legal_transitions) as Hstep.
  { intros now x value y (Hl & _ & ->)%save_Ok_inv. exact Hl. }
  assert (∀ x y, (status x, status y) ∈ legal_transitions →
            match status x with
            | pending => status y = confirmed ∨ status y = cancelled
            | confirmed => status y = active ∨ status y = cancelled
            | active => status y = completed
            | completed | cancelled => False
            end) as Hnext.
  { intros x y Hl. unfold legal_transitions in Hl.
    destruct (status x), (status y);
      repeat (apply elem_of_cons in Hl as [Hl|Hl]; try discriminate);
      try (by apply elem_of_nil in Hl); tauto. }
  intros Hrun Hs.
  inversion Hrun as [|n1 ? ? ? b1 ? Hs1 Hrun1]; subst; [by rewrite Hs|].
  apply Hstep, Hnext in Hs1. rewrite Hs in Hs1.
  inversion Hrun1 as [|n2 ? ? ? b2 ? Hs2 Hrun2]; subst;
    [destruct Hs1 as [-> | ->]; by auto|].
  apply Hstep, Hnext in Hs2.
  destruct Hs1 as [Hs1|Hs1]; rewrite Hs1 in Hs2; [|done].
  inversion Hrun2 as [|n3 ? ? ? b3 ? Hs3 Hrun3]; subst;
    [destruct Hs2 as [-> | ->]; by auto|].
  apply Hstep, Hnext in Hs3.
  destruct Hs2 as [Hs2|Hs2]; rewrite Hs2 in Hs3; [|done].
  inversion Hrun3 as [|n4 ? ? ? b4 ? Hs4 Hrun4]; subst;
    [by rewrite Hs3|].
  apply Hstep, Hnext in Hs4. by rewrite Hs3 in Hs4.
Qed.

Lemma status_reached_after_witness :
  let b := scenario_booking 10 13 pending in
  let b1 := BookingStatusSerializer.update 5 b confirmed in
  let b2 := BookingStatusSerializer.update 7 b1 cancelled in
  status b2 = cancelled ∧ (2 = 1 ∨ 2 = 2)%nat.
Proof.
  intros b b1 b2. split; [done|].
  assert (updates 2 b b2) as Hrun.
  { apply (updates_step 1 5 confirmed b b1 b2); [done|].
    apply (updates_step 0 7 cancelled b1 b2 b2); [done|].
    apply updates_none. }
  exact (status_reached_after 2 b b2 Hrun eq_refl).
Defined.

(** ** Reviewing twice *)

(** What the validation of a review request returns. *)
Lemma review_validated_inv user data db validated_data :
  ReviewSerializer.to_internal_value db data ≫= ReviewSerializer.validate user
  = Ok validated_data →
  validated_data.1 = ReviewSerializer.cleaned data
  ∧ bookings db !! ReviewSerializer.data_booking data = Some validated_data.2.
Proof.
  unfold ReviewSerializer.to_internal_value.
  destruct (bookings db !! ReviewSerializer.data_booking data) as [b|];
    [|done].
  rewrite raise_if_bind. destruct (negb _); [done|]. simpl.
  unfold ReviewSerializer.validate. rewrite !raise_if_bind. simpl.
  repeat (destruct (negb _); [done|]). by intros [= <-].
Qed.

(** X20. A booking is reviewed once: after a review has been created,
    every further request for the same booking, from any user and with any
    content, is rejected with the field error that the booking is already
    reviewed, and the database stays as the first review left it. *)
Theorem second_review_rejected user data db db' row user' data' :
  ReviewViewSet.create user data db = (db', HTTP_201 row) →
  ReviewSerializer.data_booking data' = ReviewSerializer.data_booking data →
  ∃ others,
    ReviewViewSet.create user' data' db'
    = (db', HTTP_400 (field_errors (booking_not_unique :: others))).
Proof.
  unfold ReviewViewSet.create at 1.
  destruct (_ ≫= _) as [vd|e] eqn:Hvd; [|done].
  apply review_validated_inv in Hvd as [Hdata Hbooking].
  unfold ReviewSerializer.create.
  destruct (Review_save _ _ _) as [[[db1 key] saved]|] eqn:Hs; [|done].
  apply Review_save_Some in Hs as (b & Hb & -> & -> & ->).
  simpl in Hb. rewrite Hdata in Hb. simpl in Hb. intros [= <- <-] Hsame.
  set (db' := {| bookings := bookings db; reviews := _ |}).
  assert (ReviewSerializer.booking_errors db'
            (ReviewSerializer.data_booking data) = [booking_not_unique])
    as Herr.
  { unfold ReviewSerializer.booking_errors. simpl. rewrite Hb.
    rewrite bool_decide_eq_true_2; [done|]. intros Hempty.
    eapply (map_empty_filter_1 _ _ Hempty (next_pk (reviews db)));
      [apply lookup_insert_eq|]. simpl. by rewrite Hdata. }
  unfold ReviewViewSet.create, ReviewSerializer.to_internal_value.
  rewrite Hsame, Herr.
  change (bookings db') with (bookings db). rewrite Hb. simpl.
  by eexists.
Qed.

Lemma second_review_rejected_witness :
  let db := mkDB {[ 1 := scenario_booking 10 13 completed ]} ∅ in
  let db' := (ReviewViewSet.create scenario_guest scenario_5_request db).1 in
  ∃ others,
    ReviewViewSet.create scenario_guest scenario_5_request db'
    = (db', HTTP_400 (field_errors (booking_not_unique :: others))).
Proof.
  intros db db'.
  assert (∃ row,
            ReviewViewSet.create scenario_guest scenario_5_request db
            = (db', HTTP_201 row)) as [row Hc]
    by (eexists; by vm_compute).
  exact (second_review_rejected _ _ _ _ _ scenario_guest scenario_5_request
           Hc eq_refl).
Defined.
